(** * Pyrip engine dispatch: request builder and status poller

    A shallow embedding of the chrome-cdp request builder
    ([scrapeURLWithPyripEngineChromeCDP]) and of the polling loop
    ([performPyripEngineScrape]) of the Pyrip scrape orchestrator, together
    with the properties of the engine-dispatch specification that concern
    them. *)

From Stdlib Require Import ZArith List String Bool Lia.
Import ListNotations.

Local Open Scope Z_scope.

(** ** Request builder (chrome-cdp variant) *)

Module Builder.

(** [Action] of [lib/entities].  The source builds the [wait] and the
    [screenshot] kinds; the other kinds of the union are only passed
    through, so they are kept as an opaque tag. *)
Inductive Action : Type :=
| Wait (milliseconds : Z)
| Screenshot (fullPage : bool)
| OtherAction (kind : string).

Definition Headers : Type := list (string * string).

(** The part of [meta.options] the builder reads.  [actions] may be
    absent ([meta.options.actions ?? []]). *)
Record ScrapeOptions : Type := {
  waitFor : Z;
  formats : list string;
  actions : option (list Action);
  skipTlsVerification : option bool;
  headers : option Headers
}.

Record Meta : Type := {
  url : string;
  options : ScrapeOptions
}.

(** [PyripEngineScrapeRequestCommon & PyripEngineScrapeRequestChromeCDP],
    restricted to the fields the object literal sets.  An optional field
    that the literal leaves out is [None]. *)
Record Request : Type := {
  req_url : string;
  req_engine : string;
  req_instantReturn : option bool;
  req_skipTlsVerification : option bool;
  req_headers : option Headers;
  req_actions : option (list Action);
  req_priority : option Z
}.

(** [Array.prototype.includes] on an array of strings. *)
Definition includes (xs : list string) (x : string) : bool :=
  existsb (String.eqb x) xs.

(** [meta.options.actions ?? []] *)
Definition userActions (meta : Meta) : list Action :=
  match actions (options meta) with
  | Some acts => acts
  | None => []
  end.

Definition wantsScreenshot (meta : Meta) : bool :=
  includes (formats (options meta)) "screenshot"%string
  || includes (formats (options meta)) "screenshot@fullPage"%string.

(** The local [actions] of [scrapeURLWithPyripEngineChromeCDP]: three
    spreads, in this order. *)
Definition scrapeURLWithPyripEngineChromeCDP_actions (meta : Meta) : list Action :=
  (if negb (waitFor (options meta) =? 0)
   then [Wait (waitFor (options meta))]
   else [])
  ++ (if wantsScreenshot meta
      then [Screenshot (includes (formats (options meta)) "screenshot@fullPage"%string)]
      else [])
  ++ userActions meta.

(** The local [request] of [scrapeURLWithPyripEngineChromeCDP].  The
    expression given to [priority] is not part of the available source;
    it is an argument here. *)
Definition scrapeURLWithPyripEngineChromeCDP_request
    (meta : Meta) (priority : option Z) : Request :=
  let actions := scrapeURLWithPyripEngineChromeCDP_actions meta in
  {| req_url := url meta;
     req_engine := "chrome-cdp"%string;
     req_instantReturn := Some true;
     req_skipTlsVerification := skipTlsVerification (options meta);
     req_headers := headers (options meta);
     req_actions := if (0 <? List.length actions)%nat then Some actions else None;
     req_priority := priority |}.

(** Number of actions the screenshot spread contributes. *)
Definition screenshotCount (meta : Meta) : nat :=
  if wantsScreenshot meta then 1%nat else 0%nat.

(** Number of actions the [waitFor] spread contributes. *)
Definition waitCount (meta : Meta) : nat :=
  if waitFor (options meta) =? 0 then 0%nat else 1%nat.

(** An action the builder makes up itself: a wait or a screenshot. *)
Definition synthesized (a : Action) : bool :=
  match a with
  | Wait _ | Screenshot _ => true
  | OtherAction _ => false
  end.

Definition sampleMeta (w : Z) (fmts : list string) (acts : option (list Action)) : Meta :=
  {| url := "https://example.com"%string;
     options := {| waitFor := w; formats := fmts; actions := acts;
                   skipTlsVerification := None; headers := None |} |}.

End Builder.

(** ** Status poller *)

Module Poller.

Definition defaultTimeout : Z := 10000.
Definition errorLimit : nat := 3.

(** [z.infer<typeof schema>]: the answer of the engine to [POST /scrape]. *)
Record JobHandle : Type := {
  jobId : string;
  processing : bool
}.

(** How an awaited promise settles: with a value, or with a thrown one. *)
Inductive Settled (Thrown A : Type) : Type :=
| Fulfilled (a : A)
| Rejected (e : Thrown).
Arguments Fulfilled {Thrown A} a.
Arguments Rejected {Thrown A} e.

(** The argument object of [robustFetch] in [pyripEngineScrape].  The
    base URL comes from the process environment and the tracing headers
    from Sentry; both belong to the world. *)
Record FetchParams (Request : Type) : Type := {
  fetch_path : string;
  fetch_method : string;
  fetch_body : Request;
  fetch_tryCount : nat
}.
Arguments fetch_path {Request}.
Arguments fetch_method {Request}.
Arguments fetch_body {Request}.
Arguments fetch_tryCount {Request}.

(** What the loop needs from its surroundings.  [W] is the state of the
    outside world (clock, network, remote engine); every operation that
    can observe or change it takes it and gives it back.  [Thrown] is the
    type of JavaScript values that can be thrown, with the two
    [instanceof] tests of the [catch] block; [Success] is
    [PyripEngineCheckStatusSuccess].  [robustFetch],
    [pyripEngineCheckStatus] and the two error classes are not part of
    the available source. *)
Class Runtime (W Thrown Request Success : Type) : Type := {
  Date_now : W -> Z * W;
  robustFetch : FetchParams Request -> W -> Settled Thrown JobHandle * W;
  pyripEngineCheckStatus : string -> W -> Settled Thrown Success * W;
  setTimeout : Z -> W -> W;
  instanceof_StillProcessingError : Thrown -> bool;
  instanceof_EngineError : Thrown -> bool
}.

Section Loop.

Context {W Thrown Request Success : Type}.
Context {RT : Runtime W Thrown Request Success}.

Inductive LogLevel : Type := LevelError | LevelInfo | LevelDebug.

(** The five logging calls of [performPyripEngineScrape], with their
    metadata. *)
Inductive LogEntry : Type :=
| LogErrorLimitHit (errors : list Thrown)
| LogTimedOut (errors : list Thrown) (timeout : Z)
| LogStillProcessing
| LogJobFailed (error : Thrown) (jobId : string)
| LogUnexpected (counter : nat) (error : Thrown) (jobId : string).

(** What a run does to the outside, in the order it does it. *)
Inductive Event : Type :=
| CallScrape (request : Request) (answer : Settled Thrown JobHandle)
| ReadClock (now : Z)
| CallCheckStatus (jobId : string) (answer : Settled Thrown Success)
| Delay (ms : Z)
| Log (level : LogLevel) (entry : LogEntry)
| SentryCapture (error : Thrown).

(** What [performPyripEngineScrape] can throw: the two errors it
    builds itself, with their [cause], or a caught value thrown
    again as it is. *)
Inductive Exn : Type :=
| ErrorLimitHit (cause_errors : list Thrown)
| TimeoutError (cause_errors : list Thrown) (cause_timeout : Z)
| Raised (e : Thrown).

(** How a piece of the function ends: with a value, with a thrown
    exception, or cut short because the bound on the number of loop
    iterations was reached (which is no behaviour of the function
    itself). *)
Inductive Completion (A : Type) : Type :=
| Normal (a : A)
| Throws (e : Exn)
| OutOfFuel.
Arguments Normal {A} a.
Arguments Throws {A} e.
Arguments OutOfFuel {A}.

(** The world and the one mutable local, the array [errors]. *)
Record Store : Type := {
  world : W;
  errors : list Thrown
}.

Record Run (A : Type) : Type := {
  completion : Completion A;
  store : Store;
  trace : list Event
}.
Arguments completion {A}.
Arguments store {A}.
Arguments trace {A}.

Definition Eff (A : Type) : Type := Store -> Run A.

Definition ret {A : Type} (a : A) : Eff A :=
  fun s => {| completion := Normal a; store := s; trace := [] |}.

Definition throw {A : Type} (e : Exn) : Eff A :=
  fun s => {| completion := Throws e; store := s; trace := [] |}.

Definition outOfFuel {A : Type} : Eff A :=
  fun s => {| completion := OutOfFuel; store := s; trace := [] |}.

(** A run that comes after the events [evs]. *)
Definition after {A : Type} (evs : list Event) (r : Run A) : Run A :=
  {| completion := completion r;
     store := store r;
     trace := evs ++ trace r |}.

Definition bind {A B : Type} (m : Eff A) (k : A -> Eff B) : Eff B :=
  fun s =>
    let r := m s in
    match completion r with
    | Normal a => after (trace r) (k a (store r))
    | Throws e =>
        {| completion := Throws e; store := store r; trace := trace r |}
    | OutOfFuel =>
        {| completion := OutOfFuel; store := store r; trace := trace r |}
    end.

Notation "x <- m ;; k" := (bind m (fun x => k))
  (at level 61, m at next level, right associativity).
Notation "m ;; k" := (bind m (fun _ => k))
  (at level 61, right associativity).

Definition emit (ev : Event) : Eff unit :=
  fun s => {| completion := Normal tt; store := s; trace := [ev] |}.

(** [Date.now()] *)
Definition now : Eff Z :=
  fun s =>
    let '(t, w') := Date_now (world s) in
    {| completion := Normal t;
       store := {| world := w'; errors := errors s |};
       trace := [ReadClock t] |}.

(** [await new Promise((resolve) => setTimeout(resolve, ms))] *)
Definition sleep (ms : Z) : Eff unit :=
  fun s =>
    {| completion := Normal tt;
       store := {| world := setTimeout ms (world s); errors := errors s |};
       trace := [Delay ms] |}.

(** [pyripEngineScrape] of [API/scrape.ts]: one [robustFetch] of
    [POST /scrape] with the request as body, three tries. *)
Definition scrapeParams (request : Request) : FetchParams Request :=
  {| fetch_path := "/scrape"%string;
     fetch_method := "POST"%string;
     fetch_body := request;
     fetch_tryCount := 3 |}.

Definition pyripEngineScrape (request : Request) : Eff JobHandle :=
  fun s =>
    let '(r, w') := robustFetch (scrapeParams request) (world s) in
    let s' := {| world := w'; errors := errors s |} in
    match r with
    | Fulfilled h =>
        {| completion := Normal h; store := s'; trace := [CallScrape request r] |}
    | Rejected e =>
        {| completion := Throws (Raised e); store := s'; trace := [CallScrape request r] |}
    end.

(** [await pyripEngineCheckStatus(..., jobId)] under the [try]: the
    way the promise settles is handed to the [catch] logic. *)
Definition checkStatus (jobId : string) : Eff (Settled Thrown Success) :=
  fun s =>
    let '(r, w') := pyripEngineCheckStatus jobId (world s) in
    {| completion := Normal r;
       store := {| world := w'; errors := errors s |};
       trace := [CallCheckStatus jobId r] |}.

Definition getErrors : Eff (list Thrown) :=
  fun s => {| completion := Normal (errors s); store := s; trace := [] |}.

(** [errors = []] *)
Definition resetErrors : Eff unit :=
  fun s =>
    {| completion := Normal tt;
       store := {| world := world s; errors := [] |};
       trace := [] |}.

(** [errors.push(error)] *)
Definition pushError (error : Thrown) : Eff unit :=
  fun s =>
    {| completion := Normal tt;
       store := {| world := world s; errors := errors s ++ [error] |};
       trace := [] |}.

(** The [try]/[catch] statement of the loop body; the result is the
    value of [status] after it ([None] for [undefined]).  By its type
    the promise is fulfilled with a [PyripEngineCheckStatusSuccess],
    never with [undefined]. *)
Definition tryCheckStatus (jobId : string) : Eff (option Success) :=
  r <- checkStatus jobId ;;
  match r with
  | Fulfilled status => ret (Some status)
  | Rejected error =>
      if instanceof_StillProcessingError error then
        emit (Log LevelDebug LogStillProcessing) ;;
        ret None
      else if instanceof_EngineError error then
        emit (Log LevelDebug (LogJobFailed error jobId)) ;;
        throw (Raised error)
      else
        emit (SentryCapture error) ;;
        pushError error ;;
        errs <- getErrors ;;
        emit (Log LevelDebug (LogUnexpected (List.length errs) error jobId)) ;;
        ret None
  end.

(** The body of the [while] loop; the result is the value of [status]
    at its end. *)
Definition iteration (jobId : string) (startTime timeout : Z)
    : Eff (option Success) :=
  errs <- getErrors ;;
  if (errorLimit <=? List.length errs)%nat then
    emit (Log LevelError (LogErrorLimitHit errs)) ;;
    throw (ErrorLimitHit errs)
  else
    t <- now ;;
    if t - startTime >? timeout then
      emit (Log LevelInfo (LogTimedOut errs timeout)) ;;
      throw (TimeoutError errs timeout)
    else
      status <- tryCheckStatus jobId ;;
      sleep 250 ;;
      ret status.

(** [while (status === undefined) { ... } return status;], entered
    with [status] undefined.  [fuel] bounds the number of
    iterations. *)
Fixpoint pollLoop (fuel : nat) (jobId : string) (startTime timeout : Z)
    : Eff Success :=
  match fuel with
  | O => outOfFuel
  | S fuel' =>
      status <- iteration jobId startTime timeout ;;
      match status with
      | Some result => ret result
      | None => pollLoop fuel' jobId startTime timeout
      end
  end.

(** [performPyripEngineScrape] from the line after the dispatch:
    only [scrape.jobId] is read. *)
Definition pollJob (fuel : nat) (scrape : JobHandle) (timeout : Z)
    : Eff Success :=
  startTime <- now ;;
  resetErrors ;;
  pollLoop fuel (jobId scrape) startTime timeout.

(** [performPyripEngineScrape(logger, request, timeout = defaultTimeout)],
    run from a world [w]. *)
(** The default value of the parameter [timeout]. *)
Definition effectiveTimeout (timeout : option Z) : Z :=
  match timeout with
  | Some t => t
  | None => defaultTimeout
  end.

Definition performPyripEngineScrape (fuel : nat) (request : Request)
    (timeout : option Z) (w : W) : Run Success :=
  (scrape <- pyripEngineScrape request ;;
   pollJob fuel scrape (effectiveTimeout timeout))
    {| world := w; errors := [] |}.

(** What one iteration comes to when its two guards let it through
    to the status query, read at time [t] and answered by [r] in
    world [w2]. *)
Definition afterQuery (jobId : string) (s : Store) (t : Z)
    (r : Settled Thrown Success) (w2 : W) : Run (option Success) :=
  match r with
  | Fulfilled status =>
      {| completion := Normal (Some status);
         store := {| world := setTimeout 250 w2; errors := errors s |};
         trace := [ReadClock t; CallCheckStatus jobId r; Delay 250] |}
  | Rejected e =>
      if instanceof_StillProcessingError e then
        {| completion := Normal None;
           store := {| world := setTimeout 250 w2; errors := errors s |};
           trace := [ReadClock t; CallCheckStatus jobId r;
                     Log LevelDebug LogStillProcessing; Delay 250] |}
      else if instanceof_EngineError e then
        {| completion := Throws (Raised e);
           store := {| world := w2; errors := errors s |};
           trace := [ReadClock t; CallCheckStatus jobId r;
                     Log LevelDebug (LogJobFailed e jobId)] |}
      else
        {| completion := Normal None;
           store := {| world := setTimeout 250 w2; errors := errors s ++ [e] |};
           trace := [ReadClock t; CallCheckStatus jobId r; SentryCapture e;
                     Log LevelDebug
                       (LogUnexpected (List.length (errors s ++ [e])) e jobId);
                     Delay 250] |}
  end.

End Loop.

Arguments Normal {Thrown A} a.
Arguments Throws {Thrown A} e.
Arguments OutOfFuel {Thrown A}.
Arguments completion {W Thrown Request Success A} r.
Arguments store {W Thrown Request Success A} r.
Arguments trace {W Thrown Request Success A} r.

(** *** Vocabulary of the specification *)

Section Vocabulary.

Context {W Thrown Request Success : Type}.
Context {RT : Runtime W Thrown Request Success}.

(** The three kinds of thrown value the [catch] block tells apart, in
    the order it tests them. *)
Definition isStillProcessing (e : Thrown) : bool :=
  instanceof_StillProcessingError e.

Definition isEngineFailure (e : Thrown) : bool :=
  negb (instanceof_StillProcessingError e) && instanceof_EngineError e.

Definition isUnexpected (e : Thrown) : bool :=
  negb (instanceof_StillProcessingError e) && negb (instanceof_EngineError e).

(** The reading of the clock in a world. *)
Definition clock (w : W) : Z := fst (Date_now w).

(** Wall-clock time: no operation sets the clock back, and a delay
    of [ms] takes at least [ms]. *)
Definition WallClock : Prop :=
  (forall w, clock w <= clock (snd (Date_now w)))
  /\ (forall j w, clock w <= clock (snd (pyripEngineCheckStatus j w)))
  /\ (forall ms w, clock w + ms <= clock (setTimeout ms w)).

(** Every status query is answered by a [StillProcessingError]. *)
Definition AlwaysStillProcessing : Prop :=
  forall j w, exists e,
    fst (pyripEngineCheckStatus j w) = Rejected e
    /\ isStillProcessing e = true.

(** From world [w], the dispatch of [request] is answered by the
    handle [h], and the start time then read is [startTime], leaving
    world [w']. *)
Definition started (request : Request) (w : W) (h : JobHandle)
    (startTime : Z) (w' : W) : Prop :=
  let '(r, w1) := robustFetch (scrapeParams request) w in
  r = Fulfilled h /\ Date_now w1 = (startTime, w').

(** From world [w], the next iterations of the loop find the timeout
    not exceeded and get the answers [rs] to their status queries, in
    this order (each iteration but a throwing one ends with the
    delay). *)
Fixpoint answers (jobId : string) (startTime timeout : Z)
    (rs : list (Settled Thrown Success)) (w : W) : Prop :=
  match rs with
  | [] => True
  | r :: rs' =>
      let '(t, w1) := Date_now w in
      t - startTime <= timeout
      /\ let '(r', w2) := pyripEngineCheckStatus jobId w1 in
         r' = r /\ answers jobId startTime timeout rs' (setTimeout 250 w2)
  end.

(** An answer after which the loop goes on: a thrown value that is not
    an engine failure. *)
Definition nonTerminal (r : Settled Thrown Success) : bool :=
  match r with
  | Fulfilled _ => false
  | Rejected e => negb (isEngineFailure e)
  end.

(** The unexpected errors among the answers [rs], in order. *)
Fixpoint anomalies (rs : list (Settled Thrown Success)) : list Thrown :=
  match rs with
  | [] => []
  | Rejected e :: rs' =>
      if isUnexpected e then e :: anomalies rs' else anomalies rs'
  | Fulfilled _ :: rs' => anomalies rs'
  end.

(** The status queries of a trace, with their answers. *)
Fixpoint statusQueries (tr : list (@Event Thrown Request Success))
    : list (string * Settled Thrown Success) :=
  match tr with
  | [] => []
  | CallCheckStatus j r :: tr' => (j, r) :: statusQueries tr'
  | _ :: tr' => statusQueries tr'
  end.

(** The values handed to Sentry, which are the values pushed on
    [errors]. *)
Fixpoint captured (tr : list (@Event Thrown Request Success)) : list Thrown :=
  match tr with
  | [] => []
  | SentryCapture e :: tr' => e :: captured tr'
  | _ :: tr' => captured tr'
  end.

Definition fatalAnswer (r : Settled Thrown Success) : bool :=
  match r with
  | Fulfilled _ => false
  | Rejected e => isEngineFailure e
  end.

Definition terminalAnswer (r : Settled Thrown Success) : bool :=
  match r with
  | Fulfilled _ => true
  | Rejected e => isEngineFailure e
  end.

(** No status query and no delay. *)
Fixpoint quiet (tr : list (@Event Thrown Request Success)) : bool :=
  match tr with
  | [] => true
  | CallCheckStatus _ _ :: _ => false
  | Delay _ :: _ => false
  | _ :: tr' => quiet tr'
  end.

(** Pacing as the loop does it.  [due] says that a status query was
    issued and its delay is still to come.  A query is issued only
    when no delay is due; a query answered by an engine failure is
    followed by no query and no delay; every other query, a
    fulfilled one too, is followed by the delay of 250 ms before
    anything else of the two; a delay is taken only when due. *)
Fixpoint paced (due : bool) (tr : list (@Event Thrown Request Success)) : bool :=
  match tr with
  | [] => negb due
  | CallCheckStatus _ r :: tr' =>
      negb due && (if fatalAnswer r then quiet tr' else paced true tr')
  | Delay ms :: tr' => due && (ms =? 250) && paced false tr'
  | _ :: tr' => paced due tr'
  end.

(** Pacing in the words of the specification: the delay after each
    non-terminal query, and no delay after a terminal one, be it a
    success or an engine failure. *)
Fixpoint pacedSpec (due : bool) (tr : list (@Event Thrown Request Success)) : bool :=
  match tr with
  | [] => negb due
  | CallCheckStatus _ r :: tr' =>
      negb due && (if terminalAnswer r then quiet tr' else pacedSpec true tr')
  | Delay ms :: tr' => due && (ms =? 250) && pacedSpec false tr'
  | _ :: tr' => pacedSpec due tr'
  end.

(** The answers to the status queries of a trace, in order. *)
Definition answersOf (tr : list (@Event Thrown Request Success))
    : list (Settled Thrown Success) :=
  map snd (statusQueries tr).

(** The dispatches of a trace, with their answers. *)
Fixpoint dispatches (tr : list (@Event Thrown Request Success))
    : list (Request * Settled Thrown JobHandle) :=
  match tr with
  | [] => []
  | CallScrape request a :: tr' => (request, a) :: dispatches tr'
  | _ :: tr' => dispatches tr'
  end.

End Vocabulary.

(** *** Two concrete worlds *)

Inductive JsError : Type :=
| StillProcessingError
| EngineError (message : string)
| OtherError (message : string).

Definition jsIsStillProcessing (e : JsError) : bool :=
  match e with StillProcessingError => true | _ => false end.

Definition jsIsEngineError (e : JsError) : bool :=
  match e with EngineError _ => true | _ => false end.

(** A world with a clock that only delays move, an answer to the first
    dispatch (a later one is refused) and a script of answers to the
    status queries (a [StillProcessingError] once the script is used
    up). *)
Record SimWorld : Type := {
  sim_clock : Z;
  sim_dispatch : Settled JsError JobHandle;
  sim_script : list (Settled JsError string)
}.

#[export] Instance SimRuntime : Runtime SimWorld JsError Builder.Request string := {
  Date_now w := (sim_clock w, w);
  robustFetch _ w :=
    (sim_dispatch w,
     {| sim_clock := sim_clock w;
        sim_dispatch := Rejected (OtherError "dispatched");
        sim_script := sim_script w |});
  pyripEngineCheckStatus _ w :=
    match sim_script w with
    | [] => (Rejected StillProcessingError, w)
    | r :: rs =>
        (r, {| sim_clock := sim_clock w;
               sim_dispatch := sim_dispatch w;
               sim_script := rs |})
    end;
  setTimeout ms w :=
    {| sim_clock := sim_clock w + ms;
       sim_dispatch := sim_dispatch w;
       sim_script := sim_script w |};
  instanceof_StillProcessingError := jsIsStillProcessing;
  instanceof_EngineError := jsIsEngineError
}.

(** A world that is only a clock: the job never finishes. *)
Definition IdleWorld : Type := Z.

#[export] Instance IdleRuntime : Runtime IdleWorld JsError Builder.Request string := {
  Date_now w := (w, w);
  robustFetch _ w := (Fulfilled {| jobId := "job"%string; processing := true |}, w);
  pyripEngineCheckStatus _ w := (Rejected StillProcessingError, w);
  setTimeout ms w := w + ms;
  instanceof_StillProcessingError := jsIsStillProcessing;
  instanceof_EngineError := jsIsEngineError
}.

Definition sampleRequest : Builder.Request :=
  Builder.scrapeURLWithPyripEngineChromeCDP_request
    (Builder.sampleMeta 0 [] None) None.

Definition simWorld (h : JobHandle) (script : list (Settled JsError string)) : SimWorld :=
  {| sim_clock := 0; sim_dispatch := Fulfilled h; sim_script := script |}.

(** The world [simWorld h script] after its dispatch. *)
Definition polling (script : list (Settled JsError string)) : SimWorld :=
  {| sim_clock := 0;
     sim_dispatch := Rejected (OtherError "dispatched");
     sim_script := script |}.

Definition job (p : bool) : JobHandle :=
  {| jobId := "job"%string; processing := p |}.

End Poller.

(** ** Properties of the request builder *)

Section BuilderFacts.

Import Builder.

Lemma actions_with_wait (meta : Meta) :
  waitFor (options meta) <> 0 ->
  scrapeURLWithPyripEngineChromeCDP_actions meta
  = Wait (waitFor (options meta))
    :: (if wantsScreenshot meta
        then [Screenshot (includes (formats (options meta)) "screenshot@fullPage")]
        else [])
    ++ userActions meta.
Proof.
  intros Hw. unfold scrapeURLWithPyripEngineChromeCDP_actions.
  destruct (Z.eqb_spec (waitFor (options meta)) 0) as [E | _]; [contradiction|].
  reflexivity.
Qed.

(** C7, as stated, fails: with a non-zero wait, the plain screenshot
    format requested and no caller action (N = 0), the pipeline is the
    wait action followed by a screenshot action, of length 2 and not
    N + 1 = 1. *)
Lemma C7_screenshot_counterexample :
  let meta := sampleMeta 1000 ["screenshot"%string] None in
  waitFor (options meta) <> 0
  /\ userActions meta = []
  /\ scrapeURLWithPyripEngineChromeCDP_actions meta = [Wait 1000; Screenshot false]
  /\ List.length (scrapeURLWithPyripEngineChromeCDP_actions meta)
     <> S (List.length (userActions meta)).
Proof.
  cbv zeta. repeat split; try reflexivity; simpl; discriminate.
Qed.

(** C7 (amended): for a non-zero wait duration and N caller actions, the
    pipeline is the wait of that duration, then, when a screenshot format
    is requested, one screenshot action (full page when the full-page
    format is among the formats), then the caller's actions in their
    order, and nothing else.  So its length is N + 1 when no screenshot
    format is requested and N + 2 when one is, its first action is the
    wait, and the caller's actions are its last N. *)
Theorem C7_wait_first_then_user_actions (meta : Meta) :
  waitFor (options meta) <> 0 ->
  let pipeline := scrapeURLWithPyripEngineChromeCDP_actions meta in
  pipeline
  = Wait (waitFor (options meta))
    :: (if wantsScreenshot meta
        then [Screenshot (includes (formats (options meta)) "screenshot@fullPage")]
        else [])
    ++ userActions meta
  /\ List.length pipeline
     = (List.length (userActions meta) + 1 + screenshotCount meta)%nat
  /\ hd_error pipeline = Some (Wait (waitFor (options meta)))
  /\ skipn (1 + screenshotCount meta) pipeline = userActions meta.
Proof.
  intros Hw pipeline. subst pipeline.
  rewrite (actions_with_wait meta Hw). unfold screenshotCount.
  destruct (wantsScreenshot meta); simpl; repeat split; lia.
Qed.

Lemma C7_wait_first_then_user_actions_witness :
  let meta := sampleMeta 500 ["markdown"%string; "screenshot"%string]
                (Some [OtherAction "click"; Wait 10; OtherAction "scroll"]) in
  let pipeline := scrapeURLWithPyripEngineChromeCDP_actions meta in
  pipeline
  = [Wait 500; Screenshot false;
     OtherAction "click"; Wait 10; OtherAction "scroll"]
  /\ List.length pipeline = 5%nat
  /\ hd_error pipeline = Some (Wait 500)
  /\ skipn 2 pipeline = [OtherAction "click"; Wait 10; OtherAction "scroll"].
Proof.
  cbv zeta.
  apply (C7_wait_first_then_user_actions
           (sampleMeta 500 ["markdown"%string; "screenshot"%string]
              (Some [OtherAction "click"; Wait 10; OtherAction "scroll"]))).
  simpl. discriminate.
Defined.

(** C8: with a zero wait duration, neither screenshot format requested
    and no caller action, the request has no [actions] field. *)
Theorem C8_empty_pipeline_omits_actions (meta : Meta) (priority : option Z) :
  waitFor (options meta) = 0 ->
  includes (formats (options meta)) "screenshot" = false ->
  includes (formats (options meta)) "screenshot@fullPage" = false ->
  userActions meta = [] ->
  req_actions (scrapeURLWithPyripEngineChromeCDP_request meta priority) = None.
Proof.
  intros Hw Hs Hf Hu.
  unfold scrapeURLWithPyripEngineChromeCDP_request,
    scrapeURLWithPyripEngineChromeCDP_actions, wantsScreenshot.
  rewrite Hw, Hs, Hf, Hu. reflexivity.
Qed.

Lemma C8_empty_pipeline_omits_actions_witness :
  req_actions
    (scrapeURLWithPyripEngineChromeCDP_request
       (sampleMeta 0 ["markdown"%string; "html"%string] (Some [])) (Some 10))
  = None.
Proof.
  apply C8_empty_pipeline_omits_actions; reflexivity.
Defined.

(** C9: whatever the caller's options, the chrome-cdp request has
    [instantReturn] set, and set to [true]. *)
Theorem C9_instant_return_always_true (meta : Meta) (priority : option Z) :
  req_instantReturn (scrapeURLWithPyripEngineChromeCDP_request meta priority)
  = Some true.
Proof. reflexivity. Qed.

End BuilderFacts.

(** ** Properties of the status poller *)

Section PollerFacts.

Import Poller.

Context {W Thrown Request Success : Type}.
Context {RT : Runtime W Thrown Request Success}.

Local Abbreviation Store := (@Poller.Store W Thrown).
Local Abbreviation Event := (@Poller.Event Thrown Request Success).
Local Abbreviation Exn := (@Poller.Exn Thrown).
Local Abbreviation Run := (@Poller.Run W Thrown Request Success).
Local Abbreviation Eff := (@Poller.Eff W Thrown Request Success).

Implicit Types (s : Store) (e : Thrown) (w : W).

(** *** Laws of the effect monad *)

Lemma after_nil {A : Type} (r : Run A) : after [] r = r.
Proof. destruct r; reflexivity. Qed.

Lemma after_after {A : Type} (a b : list Event) (r : Run A) :
  after a (after b r) = after (a ++ b) r.
Proof. unfold after; cbn. now rewrite app_assoc. Qed.

Lemma bind_assoc {A B C : Type} (m : Eff A) (k1 : A -> Eff B) (k2 : B -> Eff C) s :
  bind (bind m k1) k2 s = bind m (fun a => bind (k1 a) k2) s.
Proof.
  unfold bind. destruct (m s) as [[a | x |] s1 t1]; cbn; try reflexivity.
  destruct (k1 a s1) as [[b | x |] s2 t2]; cbn; try reflexivity.
  unfold after; cbn. now rewrite app_assoc.
Qed.

Lemma bind_ret {A B : Type} (a : A) (k : A -> Eff B) s :
  bind (ret a) k s = k a s.
Proof. unfold bind, ret; cbn. apply after_nil. Qed.

Lemma bind_throw {A B : Type} (x : Exn) (k : A -> Eff B) s :
  bind (throw x) k s = throw x s.
Proof. reflexivity. Qed.

Lemma bind_getErrors {B : Type} (k : list Thrown -> Eff B) s :
  bind getErrors k s = k (errors s) s.
Proof. unfold bind, getErrors; cbn. apply after_nil. Qed.

Lemma bind_emit {B : Type} (ev : Event) (k : unit -> Eff B) s :
  bind (emit ev) k s = after [ev] (k tt s).
Proof. reflexivity. Qed.

Lemma bind_pushError {B : Type} e (k : unit -> Eff B) s :
  bind (pushError e) k s
  = k tt {| world := world s; errors := errors s ++ [e] |}.
Proof. unfold bind, pushError; cbn. apply after_nil. Qed.

Lemma bind_resetErrors {B : Type} (k : unit -> Eff B) s :
  bind resetErrors k s = k tt {| world := world s; errors := [] |}.
Proof. unfold bind, resetErrors; cbn. apply after_nil. Qed.

Lemma bind_sleep {B : Type} (ms : Z) (k : unit -> Eff B) s :
  bind (sleep ms) k s
  = after [Delay ms]
      (k tt {| world := setTimeout ms (world s); errors := errors s |}).
Proof. reflexivity. Qed.

Lemma bind_now {B : Type} (k : Z -> Eff B) s t w1 :
  Date_now (world s) = (t, w1) ->
  bind now k s
  = after [ReadClock t] (k t {| world := w1; errors := errors s |}).
Proof. intros H. unfold bind, now. rewrite H. reflexivity. Qed.

Lemma bind_checkStatus {B : Type} jobId
    (k : Settled Thrown Success -> Eff B) s r w2 :
  pyripEngineCheckStatus jobId (world s) = (r, w2) ->
  bind (checkStatus jobId) k s
  = after [CallCheckStatus jobId r]
      (k r {| world := w2; errors := errors s |}).
Proof. intros H. unfold bind, checkStatus. rewrite H. reflexivity. Qed.

Lemma bind_pyripEngineScrape {B : Type} request (k : JobHandle -> Eff B) s h w1 :
  robustFetch (scrapeParams request) (world s) = (Fulfilled h, w1) ->
  bind (pyripEngineScrape request) k s
  = after [CallScrape request (Fulfilled h)]
      (k h {| world := w1; errors := errors s |}).
Proof. intros H. unfold bind, pyripEngineScrape. rewrite H. reflexivity. Qed.

(** *** One iteration, case by case *)

Lemma iteration_limit jobId startTime timeout s :
  (errorLimit <= List.length (errors s))%nat ->
  iteration jobId startTime timeout s
  = {| completion := Throws (ErrorLimitHit (errors s));
       store := s;
       trace := [Log LevelError (LogErrorLimitHit (errors s))] |}.
Proof.
  intros H. apply Nat.leb_le in H.
  unfold iteration. rewrite bind_getErrors, H, bind_emit. reflexivity.
Qed.

Lemma iteration_timeout jobId startTime timeout s t w1 :
  (List.length (errors s) < errorLimit)%nat ->
  Date_now (world s) = (t, w1) ->
  t - startTime > timeout ->
  iteration jobId startTime timeout s
  = {| completion := Throws (TimeoutError (errors s) timeout);
       store := {| world := w1; errors := errors s |};
       trace := [ReadClock t; Log LevelInfo (LogTimedOut (errors s) timeout)] |}.
Proof.
  intros Hl Hn Ht. apply Nat.leb_gt in Hl.
  assert (Hg : (t - startTime >? timeout) = true) by (apply Z.gtb_lt; lia).
  unfold iteration. rewrite bind_getErrors, Hl, (bind_now _ _ _ _ Hn), Hg, bind_emit.
  reflexivity.
Qed.

Lemma iteration_query jobId startTime timeout s t w1 r w2 :
  (List.length (errors s) < errorLimit)%nat ->
  Date_now (world s) = (t, w1) ->
  t - startTime <= timeout ->
  pyripEngineCheckStatus jobId w1 = (r, w2) ->
  iteration jobId startTime timeout s = afterQuery jobId s t r w2.
Proof.
  intros Hl Hn Ht Hq. apply Nat.leb_gt in Hl.
  assert (Hg : (t - startTime >? timeout) = false).
  { destruct (t - startTime >? timeout) eqn:E; [|reflexivity].
    apply Z.gtb_lt in E. lia. }
  unfold iteration. rewrite bind_getErrors, Hl, (bind_now _ _ _ _ Hn), Hg.
  unfold tryCheckStatus. rewrite bind_assoc.
  rewrite (bind_checkStatus jobId _ {| world := w1; errors := errors s |} r w2 Hq).
  unfold afterQuery.
  destruct r as [status | e]; cbv beta iota.
  - rewrite bind_ret, bind_sleep. reflexivity.
  - destruct (instanceof_StillProcessingError e).
    + rewrite bind_assoc, bind_emit, bind_ret, bind_sleep. reflexivity.
    + destruct (instanceof_EngineError e).
      * rewrite bind_assoc, bind_emit, bind_throw. reflexivity.
      * rewrite bind_assoc, bind_emit, bind_assoc, bind_pushError,
          bind_assoc, bind_getErrors, bind_assoc, bind_emit, bind_ret,
          bind_sleep.
        reflexivity.
Qed.

(** *** The loop, case by case *)

Lemma pollLoop_limit fuel jobId startTime timeout s :
  (errorLimit <= List.length (errors s))%nat ->
  pollLoop (S fuel) jobId startTime timeout s
  = {| completion := Throws (ErrorLimitHit (errors s));
       store := s;
       trace := [Log LevelError (LogErrorLimitHit (errors s))] |}.
Proof.
  intros H. cbn [pollLoop]. unfold bind at 1.
  rewrite (iteration_limit _ _ _ _ H). reflexivity.
Qed.

Lemma pollLoop_timeout fuel jobId startTime timeout s t w1 :
  (List.length (errors s) < errorLimit)%nat ->
  Date_now (world s) = (t, w1) ->
  t - startTime > timeout ->
  pollLoop (S fuel) jobId startTime timeout s
  = {| completion := Throws (TimeoutError (errors s) timeout);
       store := {| world := w1; errors := errors s |};
       trace := [ReadClock t; Log LevelInfo (LogTimedOut (errors s) timeout)] |}.
Proof.
  intros Hl Hn Ht. cbn [pollLoop]. unfold bind at 1.
  rewrite (iteration_timeout _ _ _ _ _ _ Hl Hn Ht). reflexivity.
Qed.

Lemma pollLoop_fulfilled fuel jobId startTime timeout s t w1 status w2 :
  (List.length (errors s) < errorLimit)%nat ->
  Date_now (world s) = (t, w1) ->
  t - startTime <= timeout ->
  pyripEngineCheckStatus jobId w1 = (Fulfilled status, w2) ->
  pollLoop (S fuel) jobId startTime timeout s
  = {| completion := Normal status;
       store := {| world := setTimeout 250 w2; errors := errors s |};
       trace := [ReadClock t; CallCheckStatus jobId (Fulfilled status); Delay 250] |}.
Proof.
  intros Hl Hn Ht Hq. cbn [pollLoop]. unfold bind at 1.
  rewrite (iteration_query _ _ _ _ _ _ _ _ Hl Hn Ht Hq).
  unfold afterQuery, after, ret. cbn. reflexivity.
Qed.

Lemma pollLoop_still fuel jobId startTime timeout s t w1 e w2 :
  (List.length (errors s) < errorLimit)%nat ->
  Date_now (world s) = (t, w1) ->
  t - startTime <= timeout ->
  pyripEngineCheckStatus jobId w1 = (Rejected e, w2) ->
  isStillProcessing e = true ->
  pollLoop (S fuel) jobId startTime timeout s
  = after [ReadClock t; CallCheckStatus jobId (Rejected e);
           Log LevelDebug LogStillProcessing; Delay 250]
      (pollLoop fuel jobId startTime timeout
         {| world := setTimeout 250 w2; errors := errors s |}).
Proof.
  intros Hl Hn Ht Hq He. unfold isStillProcessing in He.
  cbn [pollLoop]. unfold bind at 1.
  rewrite (iteration_query _ _ _ _ _ _ _ _ Hl Hn Ht Hq).
  unfold afterQuery. rewrite He. reflexivity.
Qed.

Lemma pollLoop_engine fuel jobId startTime timeout s t w1 e w2 :
  (List.length (errors s) < errorLimit)%nat ->
  Date_now (world s) = (t, w1) ->
  t - startTime <= timeout ->
  pyripEngineCheckStatus jobId w1 = (Rejected e, w2) ->
  isEngineFailure e = true ->
  pollLoop (S fuel) jobId startTime timeout s
  = {| completion := Throws (Raised e);
       store := {| world := w2; errors := errors s |};
       trace := [ReadClock t; CallCheckStatus jobId (Rejected e);
                 Log LevelDebug (LogJobFailed e jobId)] |}.
Proof.
  intros Hl Hn Ht Hq He. unfold isEngineFailure in He.
  apply andb_true_iff in He as [Hs Hf]. apply negb_true_iff in Hs.
  cbn [pollLoop]. unfold bind at 1.
  rewrite (iteration_query _ _ _ _ _ _ _ _ Hl Hn Ht Hq).
  unfold afterQuery. rewrite Hs, Hf. reflexivity.
Qed.

Lemma pollLoop_unexpected fuel jobId startTime timeout s t w1 e w2 :
  (List.length (errors s) < errorLimit)%nat ->
  Date_now (world s) = (t, w1) ->
  t - startTime <= timeout ->
  pyripEngineCheckStatus jobId w1 = (Rejected e, w2) ->
  isUnexpected e = true ->
  pollLoop (S fuel) jobId startTime timeout s
  = after [ReadClock t; CallCheckStatus jobId (Rejected e); SentryCapture e;
           Log LevelDebug (LogUnexpected (List.length (errors s ++ [e])) e jobId);
           Delay 250]
      (pollLoop fuel jobId startTime timeout
         {| world := setTimeout 250 w2; errors := errors s ++ [e] |}).
Proof.
  intros Hl Hn Ht Hq He. unfold isUnexpected in He.
  apply andb_true_iff in He as [Hs Hf].
  apply negb_true_iff in Hs. apply negb_true_iff in Hf.
  cbn [pollLoop]. unfold bind at 1.
  rewrite (iteration_query _ _ _ _ _ _ _ _ Hl Hn Ht Hq).
  unfold afterQuery. rewrite Hs, Hf. reflexivity.
Qed.

(** *** The whole function, once the job is started *)

Lemma perform_started fuel request timeout w h startTime w' :
  started request w h startTime w' ->
  performPyripEngineScrape fuel request timeout w
  = after [CallScrape request (Fulfilled h); ReadClock startTime]
      (pollLoop fuel (jobId h) startTime (effectiveTimeout timeout)
         {| world := w'; errors := [] |}).
Proof.
  unfold started. destruct (robustFetch (scrapeParams request) w) as [r w1] eqn:Hf.
  intros [-> Hn]. unfold performPyripEngineScrape.
  rewrite (bind_pyripEngineScrape _ _ {| world := w; errors := [] |} _ _ Hf).
  unfold pollJob.
  rewrite (bind_now _ {| world := w1; errors := [] |} _ _ Hn), bind_resetErrors.
  rewrite after_after. reflexivity.
Qed.

Lemma answers_cons jobId startTime timeout r rs w :
  answers jobId startTime timeout (r :: rs) w ->
  exists t w1 w2,
    Date_now w = (t, w1)
    /\ t - startTime <= timeout
    /\ pyripEngineCheckStatus jobId w1 = (r, w2)
    /\ answers jobId startTime timeout rs (setTimeout 250 w2).
Proof.
  cbn [answers]. destruct (Date_now w) as [t w1].
  destruct (pyripEngineCheckStatus jobId w1) as [r' w2] eqn:Hq.
  intros (Ht & -> & Hrest). exists t, w1, w2. auto.
Qed.

(** *** A job that never finishes, under a wall clock *)

Lemma budget_below_fuel (timeout : Z) (n : nat) :
  (Z.to_nat (timeout / 250) + 1 <= n)%nat ->
  timeout < 250 * Z.of_nat n.
Proof.
  intros Hn.
  assert (H1 : timeout < 250 * Z.succ (timeout / 250))
    by (apply Z.mul_succ_div_gt; lia).
  lia.
Qed.

Lemma below_limit_0 w :
  (List.length (errors {| world := w; errors := @nil Thrown |}) < errorLimit)%nat.
Proof. unfold errorLimit. cbn. lia. Qed.

Lemma below_limit_1 w e :
  (List.length (errors {| world := w; errors := [e] |}) < errorLimit)%nat.
Proof. unfold errorLimit. cbn. lia. Qed.

Lemma pollLoop_idle jobId startTime timeout :
  WallClock -> AlwaysStillProcessing ->
  forall fuel w,
    timeout - (clock w - startTime) < 250 * Z.of_nat fuel ->
    let r := pollLoop (S fuel) jobId startTime timeout
               {| world := w; errors := [] |} in
    completion r = Throws (TimeoutError [] timeout) /\ errors (store r) = [].
Proof.
  intros (Hnow & Hcheck & Hsleep) Hstill.
  induction fuel as [| fuel IH]; intros w Hb r; subst r;
    unfold clock in Hb;
    destruct (Date_now w) as [t w1] eqn:Hn; cbn [fst] in Hb;
    destruct (Z_gt_le_dec (t - startTime) timeout) as [Hgt | Hle].
  - rewrite (pollLoop_timeout _ _ _ _ {| world := w; errors := [] |} t w1
               (below_limit_0 _) Hn Hgt).
    split; reflexivity.
  - lia.
  - rewrite (pollLoop_timeout _ _ _ _ {| world := w; errors := [] |} t w1
               (below_limit_0 _) Hn Hgt).
    split; reflexivity.
  - destruct (pyripEngineCheckStatus jobId w1) as [a w2] eqn:Hq.
    destruct (Hstill jobId w1) as (e & Ha & He).
    rewrite Hq in Ha. cbn [fst] in Ha. subst a.
    rewrite (pollLoop_still _ _ _ _ {| world := w; errors := [] |} t w1 e w2
               (below_limit_0 _) Hn Hle Hq He).
    apply (IH (setTimeout 250 w2)).
    specialize (Hnow w). specialize (Hcheck jobId w1). specialize (Hsleep 250 w2).
    unfold clock in *. rewrite Hn in Hnow. rewrite Hq in Hcheck.
    cbn [fst snd] in *. lia.
Qed.

(** *** Anomalies up to the ceiling *)

Lemma pollLoop_anomalies jobId startTime timeout :
  forall rs errs w fuel,
    answers jobId startTime timeout rs w ->
    forallb nonTerminal rs = true ->
    List.length (errs ++ anomalies rs) = errorLimit ->
    (List.length rs < fuel)%nat ->
    completion (pollLoop fuel jobId startTime timeout
                  {| world := w; errors := errs |})
    = Throws (ErrorLimitHit (errs ++ anomalies rs)).
Proof.
  induction rs as [| r rs IH]; intros errs w fuel Ha Hnt Hlen Hfuel;
    (destruct fuel as [| fuel]; [cbn in Hfuel; lia |]).
  - cbn [anomalies] in *. rewrite app_nil_r in *.
    rewrite pollLoop_limit; [reflexivity | cbn [errors]; lia].
  - destruct (le_lt_dec errorLimit (List.length errs)) as [Hge | Hlt].
    + rewrite pollLoop_limit by exact Hge. cbn [completion errors].
      rewrite length_app in Hlen.
      destruct (anomalies (r :: rs)); [| cbn in Hlen; lia].
      now rewrite app_nil_r.
    + apply answers_cons in Ha as (t & w1 & w2 & Hn & Ht & Hq & Ha).
      cbn [forallb] in Hnt. apply andb_true_iff in Hnt as [Hr Hnt].
      destruct r as [status | e]; [discriminate |].
      cbn [nonTerminal] in Hr. apply negb_true_iff in Hr.
      cbn [anomalies] in *. cbn in Hfuel.
      destruct (instanceof_StillProcessingError e) eqn:Hstill.
      * assert (Hu : isUnexpected e = false)
          by (unfold isUnexpected; rewrite Hstill; reflexivity).
        rewrite Hu in *.
        rewrite (pollLoop_still _ _ _ _ {| world := w; errors := errs |}
                   t w1 e w2 Hlt Hn Ht Hq Hstill).
        cbn [after completion errors].
        apply IH; auto. lia.
      * assert (Hu : isUnexpected e = true).
        { unfold isUnexpected, isEngineFailure in *. rewrite Hstill in *.
          cbn in *. now rewrite Hr. }
        rewrite Hu in *.
        rewrite (pollLoop_unexpected _ _ _ _ {| world := w; errors := errs |}
                   t w1 e w2 Hlt Hn Ht Hq Hu).
        cbn [after completion errors].
        replace (errs ++ e :: anomalies rs) with ((errs ++ [e]) ++ anomalies rs)
          in * by (rewrite <- app_assoc; reflexivity).
        apply IH; auto. lia.
Qed.

(** *** The claims about the loop *)

(** C1: in an iteration entered with the anomaly count at the ceiling
    (3) or beyond, the loop throws the error-limit error, with the whole
    [errors] array as its cause, whatever the clock reads: the clock is
    not read at all (the world is left as it is and the only event is the
    log entry), so the timeout is not looked at, exceeded or not. *)
Theorem C1_ceiling_checked_before_timeout fuel jobId startTime timeout s :
  (errorLimit <= List.length (errors s))%nat ->
  pollLoop (S fuel) jobId startTime timeout s
  = {| completion := Throws (ErrorLimitHit (errors s));
       store := s;
       trace := [Log LevelError (LogErrorLimitHit (errors s))] |}.
Proof. apply pollLoop_limit. Qed.

(** C2: an iteration whose status query is answered by an engine
    failure throws that very value at once: no delay, no further query,
    and the [errors] array as it was, whatever it holds.  In particular,
    when the first query of a run is so answered, the run throws the
    engine's error with [errors] empty and nothing handed to Sentry. *)
Theorem C2_engine_failure_is_fatal :
  (forall fuel jobId startTime timeout s t w1 e w2,
      (List.length (errors s) < errorLimit)%nat ->
      Date_now (world s) = (t, w1) ->
      t - startTime <= timeout ->
      pyripEngineCheckStatus jobId w1 = (Rejected e, w2) ->
      isEngineFailure e = true ->
      pollLoop (S fuel) jobId startTime timeout s
      = {| completion := Throws (Raised e);
           store := {| world := w2; errors := errors s |};
           trace := [ReadClock t; CallCheckStatus jobId (Rejected e);
                     Log LevelDebug (LogJobFailed e jobId)] |})
  /\ (forall fuel request timeout w h startTime w' e,
      started request w h startTime w' ->
      answers (jobId h) startTime (effectiveTimeout timeout) [Rejected e] w' ->
      isEngineFailure e = true ->
      let r := performPyripEngineScrape (S fuel) request timeout w in
      completion r = Throws (Raised e)
      /\ errors (store r) = []
      /\ captured (trace r) = []
      /\ statusQueries (trace r) = [(jobId h, Rejected e)]).
Proof.
  split.
  - intros. now apply (pollLoop_engine _ _ _ _ _ t w1 e w2).
  - intros fuel request timeout w h startTime w' e Hs Ha He r. subst r.
    rewrite (perform_started _ _ _ _ _ _ _ Hs).
    apply answers_cons in Ha as (t & w1 & w2 & Hn & Ht & Hq & _).
    rewrite (pollLoop_engine _ _ _ _ {| world := w'; errors := [] |} t w1 e w2
               (below_limit_0 _) Hn Ht Hq He).
    cbn. auto.
Qed.

(** C3: when the status queries of a run are answered by thrown values
    only, none of them an engine failure, and exactly three of them are
    unexpected errors (three in a row, or with still-processing answers
    around them), the run throws the error-limit error, whose cause holds
    exactly these three errors, in order. *)
Theorem C3_three_unexpected_errors fuel request timeout w h startTime w' rs e1 e2 e3 :
  started request w h startTime w' ->
  answers (jobId h) startTime (effectiveTimeout timeout) rs w' ->
  forallb nonTerminal rs = true ->
  anomalies rs = [e1; e2; e3] ->
  (List.length rs < fuel)%nat ->
  completion (performPyripEngineScrape fuel request timeout w)
  = Throws (ErrorLimitHit [e1; e2; e3]).
Proof.
  intros Hs Ha Hnt Han Hfuel.
  rewrite (perform_started _ _ _ _ _ _ _ Hs). cbn [after completion].
  rewrite <- Han.
  apply (pollLoop_anomalies _ _ _ rs [] w' fuel Ha Hnt); auto.
  cbn [app]. now rewrite Han.
Qed.

(** C4: an iteration entered with the anomaly count below the ceiling
    and with more than [timeout] elapsed since the start throws the
    timeout error, whose cause holds the [errors] array and the
    configured timeout.  And when every status query answers that the
    job is still processing, under a wall clock, a run with enough fuel
    for [timeout / 250 + 2] iterations throws the timeout error with an
    empty anomaly log. *)
Theorem C4_timeout_after_ceiling_check :
  (forall fuel jobId startTime timeout s t w1,
      (List.length (errors s) < errorLimit)%nat ->
      Date_now (world s) = (t, w1) ->
      t - startTime > timeout ->
      pollLoop (S fuel) jobId startTime timeout s
      = {| completion := Throws (TimeoutError (errors s) timeout);
           store := {| world := w1; errors := errors s |};
           trace := [ReadClock t;
                     Log LevelInfo (LogTimedOut (errors s) timeout)] |})
  /\ (WallClock -> AlwaysStillProcessing ->
      forall fuel request timeout w h startTime w',
        started request w h startTime w' ->
        (Z.to_nat (effectiveTimeout timeout / 250) + 2 <= fuel)%nat ->
        let r := performPyripEngineScrape fuel request timeout w in
        completion r = Throws (TimeoutError [] (effectiveTimeout timeout))
        /\ errors (store r) = []).
Proof.
  split.
  - intros. now apply pollLoop_timeout.
  - intros Hclock Hstill fuel request timeout w h startTime w' Hs Hfuel r.
    subst r. rewrite (perform_started _ _ _ _ _ _ _ Hs).
    destruct fuel as [| fuel]; [lia |].
    cbn [after completion store].
    apply (pollLoop_idle _ _ _ Hclock Hstill).
    assert (Hb : effectiveTimeout timeout < 250 * Z.of_nat fuel)
      by (apply budget_below_fuel; lia).
    assert (Hc : startTime <= clock w').
    { unfold started in Hs.
      destruct (robustFetch (scrapeParams request) w) as [a w1].
      destruct Hs as [_ Hn]. destruct Hclock as (Hnow & _).
      specialize (Hnow w1). unfold clock in *. rewrite Hn in Hnow.
      exact Hnow. }
    lia.
Qed.

(** C5: an iteration whose status query answers that the job is still
    processing leaves the [errors] array as it was and goes on with the
    next iteration after the delay.  And when the first three status
    queries of a run are answered by still-processing, an unexpected
    error and a result, with the timeout not exceeded, the run returns
    that result, and [errors] then holds exactly the one unexpected
    error. *)
Theorem C5_still_processing_records_nothing :
  (forall fuel jobId startTime timeout s t w1 e w2,
      (List.length (errors s) < errorLimit)%nat ->
      Date_now (world s) = (t, w1) ->
      t - startTime <= timeout ->
      pyripEngineCheckStatus jobId w1 = (Rejected e, w2) ->
      isStillProcessing e = true ->
      pollLoop (S fuel) jobId startTime timeout s
      = after [ReadClock t; CallCheckStatus jobId (Rejected e);
               Log LevelDebug LogStillProcessing; Delay 250]
          (pollLoop fuel jobId startTime timeout
             {| world := setTimeout 250 w2; errors := errors s |}))
  /\ (forall fuel request timeout w h startTime w' e1 e2 result,
      started request w h startTime w' ->
      answers (jobId h) startTime (effectiveTimeout timeout)
        [Rejected e1; Rejected e2; Fulfilled result] w' ->
      isStillProcessing e1 = true ->
      isUnexpected e2 = true ->
      let r := performPyripEngineScrape (3 + fuel) request timeout w in
      completion r = Normal result
      /\ errors (store r) = [e2]
      /\ captured (trace r) = [e2]).
Proof.
  split.
  - intros. now apply (pollLoop_still _ _ _ _ _ t w1 e w2).
  - intros fuel request timeout w h startTime w' e1 e2 result Hs Ha H1 H2 r.
    subst r. rewrite (perform_started _ _ _ _ _ _ _ Hs).
    apply answers_cons in Ha as (t1 & u1 & v1 & Hn1 & Ht1 & Hq1 & Ha).
    apply answers_cons in Ha as (t2 & u2 & v2 & Hn2 & Ht2 & Hq2 & Ha).
    apply answers_cons in Ha as (t3 & u3 & v3 & Hn3 & Ht3 & Hq3 & _).
    cbn [Nat.add].
    rewrite (pollLoop_still _ _ _ _ {| world := w'; errors := [] |} t1 u1 e1 v1
               (below_limit_0 _) Hn1 Ht1 Hq1 H1).
    cbn [errors].
    rewrite (pollLoop_unexpected _ _ _ _ {| world := _; errors := [] |} t2 u2 e2 v2
               (below_limit_0 _) Hn2 Ht2 Hq2 H2).
    cbn [errors app].
    rewrite (pollLoop_fulfilled _ _ _ _ {| world := _; errors := [e2] |} t3 u3 result v3
               (below_limit_1 _ _) Hn3 Ht3 Hq3).
    cbn. auto.
Qed.

(** *** Pacing of the status queries *)

Lemma paced_pollLoop jobId startTime timeout :
  forall fuel s,
    paced false (trace (pollLoop fuel jobId startTime timeout s)) = true.
Proof.
  induction fuel as [| fuel IH]; intros s; [reflexivity |].
  destruct (le_lt_dec errorLimit (List.length (errors s))) as [Hge | Hlt].
  { rewrite (pollLoop_limit _ _ _ _ _ Hge). reflexivity. }
  destruct (Date_now (world s)) as [t w1] eqn:Hn.
  destruct (Z_gt_le_dec (t - startTime) timeout) as [Hgt | Hle].
  { rewrite (pollLoop_timeout _ _ _ _ _ _ _ Hlt Hn Hgt). reflexivity. }
  destruct (pyripEngineCheckStatus jobId w1) as [[status | e] w2] eqn:Hq.
  { rewrite (pollLoop_fulfilled _ _ _ _ _ _ _ _ _ Hlt Hn Hle Hq). reflexivity. }
  destruct (instanceof_StillProcessingError e) eqn:Hs.
  { rewrite (pollLoop_still _ _ _ _ _ _ _ _ _ Hlt Hn Hle Hq Hs).
    cbn [after trace app paced fatalAnswer]. unfold isEngineFailure.
    rewrite Hs. cbn. apply IH. }
  destruct (instanceof_EngineError e) eqn:Hf.
  - assert (He : isEngineFailure e = true)
      by (unfold isEngineFailure; rewrite Hs, Hf; reflexivity).
    rewrite (pollLoop_engine _ _ _ _ _ _ _ _ _ Hlt Hn Hle Hq He).
    cbn [trace paced fatalAnswer]. rewrite He. reflexivity.
  - assert (He : isUnexpected e = true)
      by (unfold isUnexpected; rewrite Hs, Hf; reflexivity).
    rewrite (pollLoop_unexpected _ _ _ _ _ _ _ _ _ Hlt Hn Hle Hq He).
    cbn [after trace app paced fatalAnswer]. unfold isEngineFailure.
    rewrite Hs, Hf. cbn. apply IH.
Qed.

(** C6 (amended): in every run, a status query is issued only when no
    delay is pending; a query answered by an engine failure is followed
    by no delay and no further query; and every other query, the one
    that is fulfilled with the result included, is followed by the delay
    of 250 ms before the next query and before the end of the run.  So
    two status queries are always a delay apart, the fatal exit takes no
    delay, and the successful exit takes one. *)
Theorem C6_one_query_per_delay fuel request timeout w :
  paced false (trace (performPyripEngineScrape fuel request timeout w)) = true.
Proof.
  destruct (robustFetch (scrapeParams request) w) as [[h | e] w1] eqn:Hf.
  - destruct (Date_now w1) as [startTime w'] eqn:Hn.
    assert (Hs : started request w h startTime w')
      by (unfold started; rewrite Hf; auto).
    rewrite (perform_started _ _ _ _ _ _ _ Hs).
    cbn [after trace app paced]. apply paced_pollLoop.
  - unfold performPyripEngineScrape, bind, pyripEngineScrape.
    cbn [world]. rewrite Hf. reflexivity.
Qed.

(** *** The [processing] hint *)

Lemma pollLoop_first_query fuel jobId startTime timeout w a :
  answers jobId startTime timeout [a] w ->
  hd_error
    (statusQueries
       (trace (pollLoop (S fuel) jobId startTime timeout
                 {| world := w; errors := [] |})))
  = Some (jobId, a).
Proof.
  intros Ha. apply answers_cons in Ha as (t & w1 & w2 & Hn & Ht & Hq & _).
  destruct a as [status | e].
  { rewrite (pollLoop_fulfilled _ _ _ _ {| world := w; errors := [] |} _ _ _ _
               (below_limit_0 _) Hn Ht Hq).
    reflexivity. }
  destruct (instanceof_StillProcessingError e) eqn:Hs.
  { rewrite (pollLoop_still _ _ _ _ {| world := w; errors := [] |} _ _ _ _
               (below_limit_0 _) Hn Ht Hq Hs).
    reflexivity. }
  destruct (instanceof_EngineError e) eqn:Hf.
  - assert (He : isEngineFailure e = true)
      by (unfold isEngineFailure; rewrite Hs, Hf; reflexivity).
    rewrite (pollLoop_engine _ _ _ _ {| world := w; errors := [] |} _ _ _ _
               (below_limit_0 _) Hn Ht Hq He).
    reflexivity.
  - assert (He : isUnexpected e = true)
      by (unfold isUnexpected; rewrite Hs, Hf; reflexivity).
    rewrite (pollLoop_unexpected _ _ _ _ {| world := w; errors := [] |} _ _ _ _
               (below_limit_0 _) Hn Ht Hq He).
    reflexivity.
Qed.

(** C10 (amended): two runs whose dispatch is answered by handles that
    differ only in [processing], and that leave the same world, end the
    same way, with the same store, the same status queries and the same
    events after the dispatch.  And with [processing] false, a run that
    finds the timeout not exceeded at its first loop-start check issues a
    status query. *)
Theorem C10_processing_hint_is_ignored :
  (forall fuel request timeout w1 w2 w' j p1 p2,
      robustFetch (scrapeParams request) w1
      = (Fulfilled {| jobId := j; processing := p1 |}, w') ->
      robustFetch (scrapeParams request) w2
      = (Fulfilled {| jobId := j; processing := p2 |}, w') ->
      let r1 := performPyripEngineScrape fuel request timeout w1 in
      let r2 := performPyripEngineScrape fuel request timeout w2 in
      completion r1 = completion r2
      /\ store r1 = store r2
      /\ tl (trace r1) = tl (trace r2)
      /\ statusQueries (trace r1) = statusQueries (trace r2))
  /\ (forall fuel request timeout w j startTime w' a,
      started request w {| jobId := j; processing := false |} startTime w' ->
      answers j startTime (effectiveTimeout timeout) [a] w' ->
      hd_error
        (statusQueries
           (trace (performPyripEngineScrape (S fuel) request timeout w)))
      = Some (j, a)).
Proof.
  split.
  - intros fuel request timeout w1 w2 w' j p1 p2 H1 H2 r1 r2. subst r1 r2.
    destruct (Date_now w') as [startTime w''] eqn:Hn.
    assert (Hs1 : started request w1 {| jobId := j; processing := p1 |} startTime w'')
      by (unfold started; rewrite H1; auto).
    assert (Hs2 : started request w2 {| jobId := j; processing := p2 |} startTime w'')
      by (unfold started; rewrite H2; auto).
    rewrite (perform_started _ _ _ _ _ _ _ Hs1), (perform_started _ _ _ _ _ _ _ Hs2).
    cbn. auto.
  - intros fuel request timeout w j startTime w' a Hs Ha.
    rewrite (perform_started _ _ _ _ _ _ _ Hs).
    cbn [after trace app statusQueries jobId].
    now apply pollLoop_first_query.
Qed.

End PollerFacts.

(** ** The claims at concrete inputs *)

Section Instances.

Import Poller.

Lemma idle_wall_clock : @WallClock IdleWorld JsError Builder.Request string IdleRuntime.
Proof. unfold WallClock, clock; cbn. repeat split; intros; lia. Qed.

Lemma idle_always_still :
  @AlwaysStillProcessing IdleWorld JsError Builder.Request string IdleRuntime.
Proof. intros j w. exists StillProcessingError. split; reflexivity. Qed.

Lemma C1_ceiling_checked_before_timeout_witness :
  let errs := [OtherError "a"; OtherError "b"; OtherError "c"] in
  let s := {| world := {| sim_clock := 5000;
                          sim_dispatch := Fulfilled (job true);
                          sim_script := [] |};
              errors := errs |} in
  pollLoop 1 "job" 0 1000 s
  = {| completion := Throws (ErrorLimitHit errs);
       store := s;
       trace := [Log LevelError (LogErrorLimitHit errs)] |}.
Proof.
  cbv zeta. apply (C1_ceiling_checked_before_timeout (RT := SimRuntime)).
  unfold errorLimit. cbn. lia.
Defined.

Lemma C2_engine_failure_is_fatal_witness :
  let boom := EngineError "boom" in
  let w := {| sim_clock := 700;
              sim_dispatch := Fulfilled (job true);
              sim_script := [Rejected boom] |} in
  let w2 := {| sim_clock := 700;
               sim_dispatch := Fulfilled (job true);
               sim_script := [] |} in
  let errs := [OtherError "a"; OtherError "b"] in
  let r := performPyripEngineScrape 1 sampleRequest None
             (simWorld (job true) [Rejected boom]) in
  pollLoop 1 "job" 0 1000 {| world := w; errors := errs |}
  = {| completion := Throws (Raised boom);
       store := {| world := w2; errors := errs |};
       trace := [ReadClock 700; CallCheckStatus "job" (Rejected boom);
                 Log LevelDebug (LogJobFailed boom "job")] |}
  /\ completion r = Throws (Raised boom)
  /\ errors (store r) = []
  /\ captured (trace r) = []
  /\ statusQueries (trace r) = [("job"%string, Rejected boom)].
Proof.
  cbv zeta. split.
  - apply (proj1 (C2_engine_failure_is_fatal (RT := SimRuntime)) 0%nat
             "job"%string 0 1000
             {| world := {| sim_clock := 700;
                            sim_dispatch := Fulfilled (job true);
                            sim_script := [Rejected (EngineError "boom")] |};
                errors := [OtherError "a"; OtherError "b"] |}
             700
             {| sim_clock := 700;
                sim_dispatch := Fulfilled (job true);
                sim_script := [Rejected (EngineError "boom")] |}).
    + unfold errorLimit. cbn. lia.
    + reflexivity.
    + lia.
    + reflexivity.
    + reflexivity.
  - apply (proj2 (C2_engine_failure_is_fatal (RT := SimRuntime)) 0%nat
             sampleRequest None
             (simWorld (job true) [Rejected (EngineError "boom")])
             (job true) 0
             (polling [Rejected (EngineError "boom")])
             (EngineError "boom")).
    + unfold started. cbn. split; reflexivity.
    + cbn. repeat split; try reflexivity. unfold defaultTimeout. lia.
    + reflexivity.
Defined.

Lemma C3_three_unexpected_errors_witness :
  completion
    (performPyripEngineScrape 6 sampleRequest (Some 1000)
       (simWorld (job true)
          [Rejected StillProcessingError; Rejected (OtherError "a");
           Rejected (OtherError "b"); Rejected (OtherError "c")]))
  = Throws (ErrorLimitHit [OtherError "a"; OtherError "b"; OtherError "c"]).
Proof.
  apply (C3_three_unexpected_errors (RT := SimRuntime) 6%nat sampleRequest
           (Some 1000)
           (simWorld (job true)
              [Rejected StillProcessingError; Rejected (OtherError "a");
               Rejected (OtherError "b"); Rejected (OtherError "c")])
           (job true) 0
           (polling
              [Rejected StillProcessingError; Rejected (OtherError "a");
               Rejected (OtherError "b"); Rejected (OtherError "c")])
           [Rejected StillProcessingError; Rejected (OtherError "a");
            Rejected (OtherError "b"); Rejected (OtherError "c")]).
  - unfold started. cbn. split; reflexivity.
  - cbn. repeat split; try reflexivity; lia.
  - reflexivity.
  - reflexivity.
  - cbn. lia.
Defined.

Lemma C4_timeout_after_ceiling_check_witness :
  let w := {| sim_clock := 2000;
              sim_dispatch := Fulfilled (job true);
              sim_script := [] |} in
  let errs := [OtherError "a"] in
  let r := performPyripEngineScrape (RT := IdleRuntime) 6 sampleRequest
             (Some 1000) 0 in
  pollLoop 1 "job" 0 1000 {| world := w; errors := errs |}
  = {| completion := Throws (TimeoutError errs 1000);
       store := {| world := w; errors := errs |};
       trace := [ReadClock 2000; Log LevelInfo (LogTimedOut errs 1000)] |}
  /\ completion r = Throws (TimeoutError [] 1000)
  /\ errors (store r) = [].
Proof.
  cbv zeta. split.
  - apply (proj1 (C4_timeout_after_ceiling_check (RT := SimRuntime)) 0%nat
             "job"%string 0 1000
             {| world := {| sim_clock := 2000;
                            sim_dispatch := Fulfilled (job true);
                            sim_script := [] |};
                errors := [OtherError "a"] |}
             2000).
    + unfold errorLimit. cbn. lia.
    + reflexivity.
    + lia.
  - apply (proj2 (C4_timeout_after_ceiling_check (RT := IdleRuntime))
             idle_wall_clock idle_always_still 6%nat sampleRequest (Some 1000)
             0 (job true) 0 0).
    + unfold started. cbn. split; reflexivity.
    + cbn. lia.
Defined.

Lemma C5_still_processing_records_nothing_witness :
  let w := {| sim_clock := 250;
              sim_dispatch := Fulfilled (job true);
              sim_script := [Rejected StillProcessingError] |} in
  let w2 := {| sim_clock := 250;
               sim_dispatch := Fulfilled (job true);
               sim_script := [] |} in
  let errs := [OtherError "a"] in
  let r := performPyripEngineScrape 3 sampleRequest None
             (simWorld (job true)
                [Rejected StillProcessingError; Rejected (OtherError "blip");
                 Fulfilled "page"%string]) in
  pollLoop 1 "job" 0 1000 {| world := w; errors := errs |}
  = after [ReadClock 250; CallCheckStatus "job" (Rejected StillProcessingError);
           Log LevelDebug LogStillProcessing; Delay 250]
      (pollLoop 0 "job" 0 1000
         {| world := setTimeout 250 w2; errors := errs |})
  /\ completion r = Normal "page"%string
  /\ errors (store r) = [OtherError "blip"]
  /\ captured (trace r) = [OtherError "blip"].
Proof.
  cbv zeta. split.
  - apply (proj1 (C5_still_processing_records_nothing (RT := SimRuntime)) 0%nat
             "job"%string 0 1000
             {| world := {| sim_clock := 250;
                            sim_dispatch := Fulfilled (job true);
                            sim_script := [Rejected StillProcessingError] |};
                errors := [OtherError "a"] |}
             250
             {| sim_clock := 250;
                sim_dispatch := Fulfilled (job true);
                sim_script := [Rejected StillProcessingError] |}).
    + unfold errorLimit. cbn. lia.
    + reflexivity.
    + lia.
    + reflexivity.
    + reflexivity.
  - apply (proj2 (C5_still_processing_records_nothing (RT := SimRuntime)) 0%nat
             sampleRequest None
             (simWorld (job true)
                [Rejected StillProcessingError; Rejected (OtherError "blip");
                 Fulfilled "page"%string])
             (job true) 0
             (polling
                [Rejected StillProcessingError; Rejected (OtherError "blip");
                 Fulfilled "page"%string])
             StillProcessingError (OtherError "blip") "page"%string).
    + unfold started. cbn. split; reflexivity.
    + cbn. unfold defaultTimeout. repeat split; try reflexivity; lia.
    + reflexivity.
    + reflexivity.
Defined.

(** C6, as stated, fails: when the first status query is fulfilled, the
    run returns the result only after one more delay of 250 ms, so the
    successful exit does take the inter-poll delay. *)
Lemma C6_delay_after_success_counterexample :
  let r := performPyripEngineScrape 5 sampleRequest None
             (simWorld (job true) [Fulfilled "page"%string]) in
  completion r = Normal "page"%string
  /\ trace r
     = [CallScrape sampleRequest (Fulfilled (job true));
        ReadClock 0; ReadClock 0;
        CallCheckStatus "job" (Fulfilled "page"%string);
        Delay 250]
  /\ sim_clock (world (store r)) = 250
  /\ pacedSpec false (trace r) = false.
Proof. cbv zeta. repeat split; reflexivity. Qed.

(** C10, as stated, fails: with a negative timeout the first loop-start
    check already throws the timeout error, and no status query is
    issued, although the job (handle with [processing] false) would have
    answered the first query with its result. *)
Lemma C10_no_query_counterexample :
  let r := performPyripEngineScrape 5 sampleRequest (Some (-1))
             (simWorld (job false) [Fulfilled "page"%string]) in
  completion r = Throws (TimeoutError [] (-1))
  /\ statusQueries (trace r) = []
  /\ trace r
     = [CallScrape sampleRequest (Fulfilled (job false));
        ReadClock 0; ReadClock 0;
        Log LevelInfo (LogTimedOut [] (-1))].
Proof. cbv zeta. repeat split; reflexivity. Qed.

Lemma C10_processing_hint_is_ignored_witness :
  let script := [Fulfilled "page"%string] in
  let r1 := performPyripEngineScrape 5 sampleRequest None
              (simWorld (job true) script) in
  let r2 := performPyripEngineScrape 5 sampleRequest None
              (simWorld (job false) script) in
  (completion r1 = completion r2
   /\ store r1 = store r2
   /\ tl (trace r1) = tl (trace r2)
   /\ statusQueries (trace r1) = statusQueries (trace r2))
  /\ hd_error (statusQueries (trace r2))
     = Some ("job"%string, Fulfilled "page"%string).
Proof.
  cbv zeta. split.
  - apply (proj1 (C10_processing_hint_is_ignored (RT := SimRuntime)) 5%nat
             sampleRequest None
             (simWorld (job true) [Fulfilled "page"%string])
             (simWorld (job false) [Fulfilled "page"%string])
             (polling [Fulfilled "page"%string])
             "job"%string true false); reflexivity.
  - apply (proj2 (C10_processing_hint_is_ignored (RT := SimRuntime)) 4%nat
             sampleRequest None
             (simWorld (job false) [Fulfilled "page"%string])
             "job"%string 0
             (polling [Fulfilled "page"%string])
             (Fulfilled "page"%string)).
    + unfold started. cbn. split; reflexivity.
    + cbn. unfold defaultTimeout. repeat split; try reflexivity; lia.
Defined.

End Instances.

(** ** More on the request builder *)

Section BuilderExtras.

Import Builder.

Lemma actions_shape (meta : Meta) :
  scrapeURLWithPyripEngineChromeCDP_actions meta
  = (if waitFor (options meta) =? 0 then [] else [Wait (waitFor (options meta))])
    ++ (if wantsScreenshot meta
        then [Screenshot (includes (formats (options meta)) "screenshot@fullPage")]
        else [])
    ++ userActions meta.
Proof.
  unfold scrapeURLWithPyripEngineChromeCDP_actions.
  destruct (waitFor (options meta) =? 0); reflexivity.
Qed.

(** X1: whatever the options, the pipeline is a synthesized prefix
    followed by the caller's actions, all of them, in their order.  The
    prefix is exactly: the wait of [waitFor] milliseconds when [waitFor]
    is not zero, then one screenshot action when a screenshot format is
    requested, with its full-page flag telling whether the full-page
    format is among the formats; nothing else is synthesized, nothing is
    put among or after the caller's actions, and the length is N plus
    the number of synthesized actions. *)
Theorem X1_pipeline_is_prefix_then_user_actions (meta : Meta) :
  let pipeline := scrapeURLWithPyripEngineChromeCDP_actions meta in
  let k := (waitCount meta + screenshotCount meta)%nat in
  List.length pipeline = (k + List.length (userActions meta))%nat
  /\ firstn k pipeline
     = (if waitFor (options meta) =? 0
        then []
        else [Wait (waitFor (options meta))])
       ++ (if wantsScreenshot meta
           then [Screenshot
                   (includes (formats (options meta)) "screenshot@fullPage")]
           else [])
  /\ skipn k pipeline = userActions meta
  /\ forallb synthesized (firstn k pipeline) = true.
Proof.
  cbv zeta. rewrite actions_shape. unfold waitCount, screenshotCount.
  destruct (waitFor (options meta) =? 0); destruct (wantsScreenshot meta);
    cbn [app List.length Nat.add firstn skipn forallb synthesized andb];
    repeat split; reflexivity.
Qed.

(** X2: when the full-page screenshot format is requested, alone or
    together with the plain one, the pipeline holds one synthesized
    screenshot action, with the full-page flag set, right before the
    caller's actions; when only the plain format is requested, the flag
    is not set. *)
Theorem X2_screenshot_flag (meta : Meta) :
  wantsScreenshot meta = true ->
  let pipeline := scrapeURLWithPyripEngineChromeCDP_actions meta in
  let fullPage := includes (formats (options meta)) "screenshot@fullPage" in
  skipn (waitCount meta) pipeline = Screenshot fullPage :: userActions meta
  /\ (includes (formats (options meta)) "screenshot@fullPage" = true ->
      nth_error pipeline (waitCount meta) = Some (Screenshot true))
  /\ (includes (formats (options meta)) "screenshot@fullPage" = false ->
      nth_error pipeline (waitCount meta) = Some (Screenshot false)).
Proof.
  intros Hs. cbv zeta. rewrite actions_shape, Hs. unfold waitCount.
  destruct (waitFor (options meta) =? 0); cbn;
    repeat split; intros ->; reflexivity.
Qed.

Lemma X2_screenshot_flag_witness :
  let meta := sampleMeta 100 ["screenshot"%string; "screenshot@fullPage"%string]
                (Some [OtherAction "click"]) in
  let pipeline := scrapeURLWithPyripEngineChromeCDP_actions meta in
  skipn 1 pipeline = [Screenshot true; OtherAction "click"]
  /\ nth_error pipeline 1 = Some (Screenshot true).
Proof.
  cbv zeta.
  destruct (X2_screenshot_flag
              (sampleMeta 100 ["screenshot"%string; "screenshot@fullPage"%string]
                 (Some [OtherAction "click"])) eq_refl) as (H1 & H2 & _).
  split; [exact H1 | exact (H2 eq_refl)].
Defined.

Lemma actions_nil_iff (meta : Meta) :
  scrapeURLWithPyripEngineChromeCDP_actions meta = []
  <-> waitFor (options meta) = 0
      /\ wantsScreenshot meta = false
      /\ userActions meta = [].
Proof.
  rewrite actions_shape.
  destruct (Z.eqb_spec (waitFor (options meta)) 0) as [Hw | Hw];
    destruct (wantsScreenshot meta);
    destruct (userActions meta) as [| a acts]; cbn;
    (split; [intros H | intros (H1 & H2 & H3)]; first [congruence | auto]).
Qed.

(** X3: the request has an [actions] field exactly when there is
    something to send (a non-zero wait, a requested screenshot format or
    a caller action); the field then holds the whole pipeline, and it is
    never an empty list. *)
Theorem X3_actions_field_iff_nonempty (meta : Meta) (priority : option Z) :
  let request := scrapeURLWithPyripEngineChromeCDP_request meta priority in
  let pipeline := scrapeURLWithPyripEngineChromeCDP_actions meta in
  (req_actions request = None
   <-> waitFor (options meta) = 0
       /\ wantsScreenshot meta = false
       /\ userActions meta = [])
  /\ (forall l, req_actions request = Some l -> l = pipeline /\ l <> []).
Proof.
  cbv zeta. rewrite <- actions_nil_iff.
  unfold scrapeURLWithPyripEngineChromeCDP_request. cbn [req_actions].
  destruct (scrapeURLWithPyripEngineChromeCDP_actions meta) as [| a l'];
    cbn; split.
  - split; reflexivity.
  - intros l H. discriminate H.
  - split; intros H; discriminate H.
  - intros l H. injection H as <-. split; [reflexivity | discriminate].
Qed.

End BuilderExtras.

(** ** More on the status poller *)

Section PollerExtras.

Import Poller.

Context {W Thrown Request Success : Type}.
Context {RT : Runtime W Thrown Request Success}.

Local Abbreviation Store := (@Poller.Store W Thrown).
Local Abbreviation Event := (@Poller.Event Thrown Request Success).
Local Abbreviation Run := (@Poller.Run W Thrown Request Success).

Implicit Types (s : Store) (e : Thrown) (w : W).

(** *** Induction along the loop *)

(** A property of the runs of the loop holds when it holds of each way
    an iteration can end and is kept by each way it can go on. *)
Lemma pollLoop_cases (jobId : string) (startTime timeout : Z)
    (P : Store -> Run Success -> Prop) :
  (forall s, P s (outOfFuel s)) ->
  (forall s,
      (errorLimit <= List.length (errors s))%nat ->
      P s {| completion := Throws (ErrorLimitHit (errors s));
             store := s;
             trace := [Log LevelError (LogErrorLimitHit (errors s))] |}) ->
  (forall s t w1,
      (List.length (errors s) < errorLimit)%nat ->
      Date_now (world s) = (t, w1) ->
      t - startTime > timeout ->
      P s {| completion := Throws (TimeoutError (errors s) timeout);
             store := {| world := w1; errors := errors s |};
             trace := [ReadClock t;
                       Log LevelInfo (LogTimedOut (errors s) timeout)] |}) ->
  (forall s t w1 status w2,
      (List.length (errors s) < errorLimit)%nat ->
      Date_now (world s) = (t, w1) ->
      t - startTime <= timeout ->
      pyripEngineCheckStatus jobId w1 = (Fulfilled status, w2) ->
      P s {| completion := Normal status;
             store := {| world := setTimeout 250 w2; errors := errors s |};
             trace := [ReadClock t; CallCheckStatus jobId (Fulfilled status);
                       Delay 250] |}) ->
  (forall s t w1 e w2,
      (List.length (errors s) < errorLimit)%nat ->
      Date_now (world s) = (t, w1) ->
      t - startTime <= timeout ->
      pyripEngineCheckStatus jobId w1 = (Rejected e, w2) ->
      isEngineFailure e = true ->
      P s {| completion := Throws (Raised e);
             store := {| world := w2; errors := errors s |};
             trace := [ReadClock t; CallCheckStatus jobId (Rejected e);
                       Log LevelDebug (LogJobFailed e jobId)] |}) ->
  (forall s t w1 e w2 r',
      (List.length (errors s) < errorLimit)%nat ->
      Date_now (world s) = (t, w1) ->
      t - startTime <= timeout ->
      pyripEngineCheckStatus jobId w1 = (Rejected e, w2) ->
      isStillProcessing e = true ->
      P {| world := setTimeout 250 w2; errors := errors s |} r' ->
      P s (after [ReadClock t; CallCheckStatus jobId (Rejected e);
                  Log LevelDebug LogStillProcessing; Delay 250] r')) ->
  (forall s t w1 e w2 r',
      (List.length (errors s) < errorLimit)%nat ->
      Date_now (world s) = (t, w1) ->
      t - startTime <= timeout ->
      pyripEngineCheckStatus jobId w1 = (Rejected e, w2) ->
      isUnexpected e = true ->
      P {| world := setTimeout 250 w2; errors := errors s ++ [e] |} r' ->
      P s (after [ReadClock t; CallCheckStatus jobId (Rejected e);
                  SentryCapture e;
                  Log LevelDebug
                    (LogUnexpected (List.length (errors s ++ [e])) e jobId);
                  Delay 250] r')) ->
  forall fuel s, P s (pollLoop fuel jobId startTime timeout s).
Proof.
  intros Hout Hlimit Htimeout Hfulfilled Hengine Hstill Hunexpected.
  induction fuel as [| fuel IH]; intros s; [apply Hout |].
  destruct (le_lt_dec errorLimit (List.length (errors s))) as [Hge | Hlt].
  { rewrite (pollLoop_limit _ _ _ _ _ Hge). now apply Hlimit. }
  destruct (Date_now (world s)) as [t w1] eqn:Hn.
  destruct (Z_gt_le_dec (t - startTime) timeout) as [Hgt | Hle].
  { rewrite (pollLoop_timeout _ _ _ _ _ _ _ Hlt Hn Hgt). now apply Htimeout. }
  destruct (pyripEngineCheckStatus jobId w1) as [[status | e] w2] eqn:Hq.
  { rewrite (pollLoop_fulfilled _ _ _ _ _ _ _ _ _ Hlt Hn Hle Hq).
    now apply (Hfulfilled s t w1 status w2). }
  destruct (instanceof_StillProcessingError e) eqn:Hs.
  { rewrite (pollLoop_still _ _ _ _ _ _ _ _ _ Hlt Hn Hle Hq Hs).
    apply (Hstill s t w1 e w2); auto. }
  destruct (instanceof_EngineError e) eqn:Hf.
  - assert (He : isEngineFailure e = true)
      by (unfold isEngineFailure; rewrite Hs, Hf; reflexivity).
    rewrite (pollLoop_engine _ _ _ _ _ _ _ _ _ Hlt Hn Hle Hq He).
    now apply (Hengine s t w1 e w2).
  - assert (He : isUnexpected e = true)
      by (unfold isUnexpected; rewrite Hs, Hf; reflexivity).
    rewrite (pollLoop_unexpected _ _ _ _ _ _ _ _ _ Hlt Hn Hle Hq He).
    apply (Hunexpected s t w1 e w2); auto.
Qed.

(** The two ways [performPyripEngineScrape] can go after the dispatch. *)
Lemma perform_cases fuel request timeout w :
  (exists e w1,
      robustFetch (scrapeParams request) w = (Rejected e, w1)
      /\ performPyripEngineScrape fuel request timeout w
         = {| completion := Throws (Raised e);
              store := {| world := w1; errors := [] |};
              trace := [CallScrape request (Rejected e)] |})
  \/ (exists h startTime w',
      started request w h startTime w'
      /\ performPyripEngineScrape fuel request timeout w
         = after [CallScrape request (Fulfilled h); ReadClock startTime]
             (pollLoop fuel (jobId h) startTime (effectiveTimeout timeout)
                {| world := w'; errors := [] |})).
Proof.
  destruct (robustFetch (scrapeParams request) w) as [[h | e] w1] eqn:Hf.
  - right. destruct (Date_now w1) as [startTime w'] eqn:Hn.
    assert (Hs : started request w h startTime w')
      by (unfold started; rewrite Hf; auto).
    exists h, startTime, w'. split; [exact Hs |].
    apply (perform_started _ _ _ _ _ _ _ Hs).
  - left. exists e, w1. split; [reflexivity |].
    unfold performPyripEngineScrape, bind, pyripEngineScrape.
    cbn [world]. rewrite Hf. reflexivity.
Qed.

(** *** What a run does and what it never does *)

(** X4: when the dispatch fails, the function throws the very value
    the dispatch threw, whatever the fuel, the timeout and the rest of
    the world: the clock is not read, no status query is issued, no delay
    is taken and nothing is logged. *)
Theorem X4_dispatch_failure_propagates fuel request timeout w e w1 :
  robustFetch (scrapeParams request) w = (Rejected e, w1) ->
  performPyripEngineScrape fuel request timeout w
  = {| completion := Throws (Raised e);
       store := {| world := w1; errors := [] |};
       trace := [CallScrape request (Rejected e)] |}.
Proof.
  intros Hf.
  unfold performPyripEngineScrape, bind, pyripEngineScrape.
  cbn [world]. rewrite Hf. reflexivity.
Qed.

Lemma pollLoop_no_dispatch jobId startTime timeout fuel s :
  dispatches (trace (pollLoop fuel jobId startTime timeout s)) = [].
Proof.
  apply (pollLoop_cases jobId startTime timeout
           (fun _ r => dispatches (trace r) = []));
    intros; cbn; auto.
Qed.

(** X5: every run dispatches the request exactly once, as its first
    act, and never again: not after a failed dispatch and not while
    polling. *)
Theorem X5_one_dispatch_per_run fuel request timeout w :
  dispatches (trace (performPyripEngineScrape fuel request timeout w))
  = [(request, fst (robustFetch (scrapeParams request) w))].
Proof.
  destruct (perform_cases fuel request timeout w)
    as [(e & w1 & Hf & ->) | (h & startTime & w' & Hs & ->)].
  - rewrite Hf. reflexivity.
  - unfold started in Hs.
    destruct (robustFetch (scrapeParams request) w) as [a w1].
    destruct Hs as [-> _].
    cbn [after trace app dispatches fst].
    now rewrite pollLoop_no_dispatch.
Qed.

Lemma pollLoop_errors_bounded jobId startTime timeout fuel s :
  (List.length (errors s) <= errorLimit)%nat ->
  let r := pollLoop fuel jobId startTime timeout s in
  (List.length (errors (store r)) <= errorLimit)%nat
  /\ forall errs,
      completion r = Throws (ErrorLimitHit errs) ->
      errs = errors (store r) /\ List.length errs = errorLimit.
Proof.
  cbv zeta.
  apply (pollLoop_cases jobId startTime timeout
           (fun s r =>
              (List.length (errors s) <= errorLimit)%nat ->
              (List.length (errors (store r)) <= errorLimit)%nat
              /\ forall errs,
                  completion r = Throws (ErrorLimitHit errs) ->
                  errs = errors (store r) /\ List.length errs = errorLimit)).
  - intros s0 H. split; [exact H | intros errs E; discriminate E].
  - intros s0 Hge H. split; [exact H |].
    intros errs E. injection E as <-. split; [reflexivity | cbn; lia].
  - intros s0 t w1 Hlt Hn Ht H. split; [exact H | intros errs E; discriminate E].
  - intros s0 t w1 status w2 Hlt Hn Ht Hq H.
    split; [exact H | intros errs E; discriminate E].
  - intros s0 t w1 e w2 Hlt Hn Ht Hq He H.
    split; [exact H | intros errs E; discriminate E].
  - intros s0 t w1 e w2 r' Hlt Hn Ht Hq He IH H. apply IH. exact H.
  - intros s0 t w1 e w2 r' Hlt Hn Ht Hq He IH H. apply IH.
    cbn [errors]. rewrite length_app. cbn. lia.
Qed.

(** X6: the [errors] array never holds more than three values, and
    when the function throws the error-limit error, its cause holds the
    array as it is at that point, with exactly three values. *)
Theorem X6_anomaly_log_bounded fuel request timeout w :
  let r := performPyripEngineScrape fuel request timeout w in
  (List.length (errors (store r)) <= errorLimit)%nat
  /\ forall errs,
      completion r = Throws (ErrorLimitHit errs) ->
      errs = errors (store r) /\ List.length errs = errorLimit.
Proof.
  cbv zeta.
  destruct (perform_cases fuel request timeout w)
    as [(e & w1 & Hf & ->) | (h & startTime & w' & Hs & ->)].
  - cbn. split; [unfold errorLimit; lia | intros errs E; discriminate E].
  - cbn [after completion store].
    apply (pollLoop_errors_bounded _ _ _ fuel {| world := w'; errors := [] |}).
    cbn. unfold errorLimit. lia.
Qed.

Lemma pollLoop_timeout_cause jobId startTime timeout fuel s errs t :
  completion (pollLoop fuel jobId startTime timeout s)
  = Throws (TimeoutError errs t) ->
  t = timeout
  /\ errs = errors (store (pollLoop fuel jobId startTime timeout s))
  /\ (List.length errs < errorLimit)%nat.
Proof.
  apply (pollLoop_cases jobId startTime timeout
           (fun s r =>
              completion r = Throws (TimeoutError errs t) ->
              t = timeout /\ errs = errors (store r)
              /\ (List.length errs < errorLimit)%nat));
    try (intros; cbn in *; discriminate).
  - intros s0 t0 w1 Hlt Hn Ht E. cbn in E. injection E as <- <-.
    cbn. auto.
  - intros s0 t0 w1 e w2 r' Hlt Hn Ht Hq He IH E. apply IH. exact E.
  - intros s0 t0 w1 e w2 r' Hlt Hn Ht Hq He IH E. apply IH. exact E.
Qed.

(** X7: when the function throws the timeout error, its cause holds
    the timeout in force (the argument, or the default of 10000 when it
    is left out) and the [errors] array as it is at that point, which
    then holds at most two values. *)
Theorem X7_timeout_cause fuel request timeout w errs t :
  completion (performPyripEngineScrape fuel request timeout w)
  = Throws (TimeoutError errs t) ->
  t = effectiveTimeout timeout
  /\ errs = errors (store (performPyripEngineScrape fuel request timeout w))
  /\ (List.length errs < errorLimit)%nat.
Proof.
  destruct (perform_cases fuel request timeout w)
    as [(e & w1 & Hf & ->) | (h & startTime & w' & Hs & ->)].
  - intros E. discriminate E.
  - cbn [after completion store]. apply pollLoop_timeout_cause.
Qed.

Lemma pollLoop_captured jobId startTime timeout fuel s :
  errors (store (pollLoop fuel jobId startTime timeout s))
  = errors s ++ captured (trace (pollLoop fuel jobId startTime timeout s)).
Proof.
  apply (pollLoop_cases jobId startTime timeout
           (fun s r => errors (store r) = errors s ++ captured (trace r)));
    try (intros; cbn; now rewrite app_nil_r).
  - intros s0 t w1 e w2 r' Hlt Hn Ht Hq He IH. cbn in *. exact IH.
  - intros s0 t w1 e w2 r' Hlt Hn Ht Hq He IH. cbn in *.
    rewrite IH, <- app_assoc. reflexivity.
Qed.

(** X8: in every run, the values handed to Sentry are exactly the
    values of the [errors] array at the end, in the same order: an
    anomaly is never recorded without being reported, nor reported
    without being recorded. *)
Theorem X8_sentry_reports_are_the_anomalies fuel request timeout w :
  let r := performPyripEngineScrape fuel request timeout w in
  captured (trace r) = errors (store r).
Proof.
  cbv zeta.
  destruct (perform_cases fuel request timeout w)
    as [(e & w1 & Hf & ->) | (h & startTime & w' & Hs & ->)].
  - reflexivity.
  - cbn [after trace store app captured].
    now rewrite (pollLoop_captured _ _ _ fuel {| world := w'; errors := [] |}).
Qed.

Lemma pollLoop_queries_job jobId startTime timeout fuel s :
  Forall (fun q => fst q = jobId)
    (statusQueries (trace (pollLoop fuel jobId startTime timeout s))).
Proof.
  apply (pollLoop_cases jobId startTime timeout
           (fun _ r => Forall (fun q => fst q = jobId) (statusQueries (trace r))));
    intros; cbn; repeat constructor; auto.
Qed.

(** X9: every status query of a run asks for the job whose id the
    dispatch answered with, and for no other. *)
Theorem X9_queries_ask_for_the_dispatched_job fuel request timeout w h startTime w' :
  started request w h startTime w' ->
  Forall (fun q => fst q = jobId h)
    (statusQueries (trace (performPyripEngineScrape fuel request timeout w))).
Proof.
  intros Hs. rewrite (perform_started _ _ _ _ _ _ _ Hs).
  cbn [after trace app statusQueries]. apply pollLoop_queries_job.
Qed.

(** *** Terminal answers *)

Lemma still_nonTerminal e :
  isStillProcessing e = true -> nonTerminal (@Rejected Thrown Success e) = true.
Proof.
  unfold isStillProcessing, nonTerminal, isEngineFailure. intros ->. reflexivity.
Qed.

Lemma unexpected_nonTerminal e :
  isUnexpected e = true -> nonTerminal (@Rejected Thrown Success e) = true.
Proof.
  unfold isUnexpected, nonTerminal, isEngineFailure. intros H.
  apply andb_true_iff in H as [Hs Hf].
  apply negb_true_iff in Hs. apply negb_true_iff in Hf.
  rewrite Hs, Hf. reflexivity.
Qed.

Lemma pollLoop_polls_until_terminal jobId startTime timeout fuel s :
  forallb nonTerminal
    (removelast (answersOf (trace (pollLoop fuel jobId startTime timeout s))))
  = true.
Proof.
  apply (pollLoop_cases jobId startTime timeout
           (fun _ r => forallb nonTerminal (removelast (answersOf (trace r))) = true));
    try (intros; reflexivity).
  - intros s0 t w1 e w2 r' Hlt Hn Ht Hq He IH.
    unfold answersOf in *. cbn [after trace app statusQueries map snd].
    destruct (map snd (statusQueries (trace r'))) as [| a l]; [reflexivity |].
    cbn [removelast forallb] in *.
    rewrite (still_nonTerminal e He). exact IH.
  - intros s0 t w1 e w2 r' Hlt Hn Ht Hq He IH.
    unfold answersOf in *. cbn [after trace app statusQueries map snd].
    destruct (map snd (statusQueries (trace r'))) as [| a l]; [reflexivity |].
    cbn [removelast forallb] in *.
    rewrite (unexpected_nonTerminal e He). exact IH.
Qed.

(** X10: a run never polls again after a terminal answer: of the
    answers to its status queries, every one but the last is a thrown
    value that is not an engine failure (a still-processing notice or an
    unexpected error). *)
Theorem X10_no_query_after_terminal_answer fuel request timeout w :
  forallb nonTerminal
    (removelast
       (answersOf (trace (performPyripEngineScrape fuel request timeout w))))
  = true.
Proof.
  destruct (perform_cases fuel request timeout w)
    as [(e & w1 & Hf & ->) | (h & startTime & w' & Hs & ->)].
  - reflexivity.
  - unfold answersOf. cbn [after trace app statusQueries].
    apply pollLoop_polls_until_terminal.
Qed.

Lemma pollLoop_result_is_last_answer jobId startTime timeout fuel s :
  let r := pollLoop fuel jobId startTime timeout s in
  (forall v, completion r = Normal v ->
             exists qs, answersOf (trace r) = qs ++ [Fulfilled v])
  /\ (forall e, completion r = Throws (Raised e) ->
                isEngineFailure e = true
                /\ exists qs, answersOf (trace r) = qs ++ [Rejected e]).
Proof.
  cbv zeta.
  apply (pollLoop_cases jobId startTime timeout
           (fun _ r =>
              (forall v, completion r = Normal v ->
                         exists qs, answersOf (trace r) = qs ++ [Fulfilled v])
              /\ (forall e, completion r = Throws (Raised e) ->
                            isEngineFailure e = true
                            /\ exists qs, answersOf (trace r) = qs ++ [Rejected e])));
    try (intros; split; intros x E; discriminate E).
  - intros s0 t w1 status w2 Hlt Hn Ht Hq. split; intros x E; [| discriminate E].
    injection E as <-. exists []. reflexivity.
  - intros s0 t w1 e w2 Hlt Hn Ht Hq He. split; intros x E; [discriminate E |].
    injection E as <-. split; [exact He | exists []; reflexivity].
  - intros s0 t w1 e w2 r' Hlt Hn Ht Hq He [IHv IHe].
    unfold answersOf in *. cbn [after trace completion app statusQueries map snd].
    split.
    + intros v E. destruct (IHv v E) as [qs Hqs]. exists (Rejected e :: qs).
      rewrite Hqs. reflexivity.
    + intros x E. destruct (IHe x E) as [Hx [qs Hqs]]. split; [exact Hx |].
      exists (Rejected e :: qs). rewrite Hqs. reflexivity.
  - intros s0 t w1 e w2 r' Hlt Hn Ht Hq He [IHv IHe].
    unfold answersOf in *. cbn [after trace completion app statusQueries map snd].
    split.
    + intros v E. destruct (IHv v E) as [qs Hqs]. exists (Rejected e :: qs).
      rewrite Hqs. reflexivity.
    + intros x E. destruct (IHe x E) as [Hx [qs Hqs]]. split; [exact Hx |].
      exists (Rejected e :: qs). rewrite Hqs. reflexivity.
Qed.

(** X11: once the job is started, a value the function returns is the
    value its last status query was fulfilled with, and a caught value it
    throws again is an engine failure that its last status query threw. *)
Theorem X11_result_is_last_answer fuel request timeout w h startTime w' :
  started request w h startTime w' ->
  let r := performPyripEngineScrape fuel request timeout w in
  (forall v, completion r = Normal v ->
             exists qs, answersOf (trace r) = qs ++ [Fulfilled v])
  /\ (forall e, completion r = Throws (Raised e) ->
                isEngineFailure e = true
                /\ exists qs, answersOf (trace r) = qs ++ [Rejected e]).
Proof.
  intros Hs. cbv zeta. rewrite (perform_started _ _ _ _ _ _ _ Hs).
  unfold answersOf. cbn [after trace completion app statusQueries].
  apply pollLoop_result_is_last_answer.
Qed.

(** *** Termination under a wall clock *)

Lemma budget_below_queries (timeout : Z) :
  timeout < 250 * Z.of_nat (Z.to_nat (timeout / 250 + 1)).
Proof.
  assert (H1 : timeout < 250 * Z.succ (timeout / 250))
    by (apply Z.mul_succ_div_gt; lia).
  lia.
Qed.

Lemma pollLoop_terminates jobId startTime timeout :
  WallClock ->
  forall n fuel s,
    timeout - (clock (world s) - startTime) < 250 * Z.of_nat n ->
    (n < fuel)%nat ->
    let r := pollLoop fuel jobId startTime timeout s in
    completion r <> OutOfFuel
    /\ (List.length (statusQueries (trace r)) <= n)%nat.
Proof.
  intros (Hnow & Hcheck & Hsleep).
  induction n as [| n IH]; intros fuel s Hb Hfuel r; subst r;
    (destruct fuel as [| fuel]; [lia |]);
    (destruct (le_lt_dec errorLimit (List.length (errors s))) as [Hge | Hlt];
     [rewrite (pollLoop_limit _ _ _ _ _ Hge); cbn; split; [discriminate | lia] |]);
    unfold clock in Hb;
    destruct (Date_now (world s)) as [t w1] eqn:Hn; cbn [fst] in Hb;
    (destruct (Z_gt_le_dec (t - startTime) timeout) as [Hgt | Hle];
     [rewrite (pollLoop_timeout _ _ _ _ _ _ _ Hlt Hn Hgt); cbn;
      split; [discriminate | lia] |]).
  - lia.
  - destruct (pyripEngineCheckStatus jobId w1) as [[status | e] w2] eqn:Hq.
    { rewrite (pollLoop_fulfilled _ _ _ _ _ _ _ _ _ Hlt Hn Hle Hq). cbn.
      split; [discriminate | lia]. }
    assert (Hb' : timeout - (clock (setTimeout 250 w2) - startTime)
                  < 250 * Z.of_nat n).
    { specialize (Hnow (world s)). specialize (Hcheck jobId w1).
      specialize (Hsleep 250 w2).
      unfold clock in *. rewrite Hn in Hnow. rewrite Hq in Hcheck.
      cbn [fst snd] in *. lia. }
    destruct (instanceof_StillProcessingError e) eqn:Hs.
    { rewrite (pollLoop_still _ _ _ _ _ _ _ _ _ Hlt Hn Hle Hq Hs).
      cbn [after completion trace app statusQueries List.length].
      destruct (IH fuel {| world := setTimeout 250 w2; errors := errors s |})
        as [Hc Hl]; [exact Hb' | lia |].
      split; [exact Hc | lia]. }
    destruct (instanceof_EngineError e) eqn:Hf.
    + assert (He : isEngineFailure e = true)
        by (unfold isEngineFailure; rewrite Hs, Hf; reflexivity).
      rewrite (pollLoop_engine _ _ _ _ _ _ _ _ _ Hlt Hn Hle Hq He). cbn.
      split; [discriminate | lia].
    + assert (He : isUnexpected e = true)
        by (unfold isUnexpected; rewrite Hs, Hf; reflexivity).
      rewrite (pollLoop_unexpected _ _ _ _ _ _ _ _ _ Hlt Hn Hle Hq He).
      cbn [after completion trace app statusQueries List.length].
      destruct (IH fuel {| world := setTimeout 250 w2; errors := errors s ++ [e] |})
        as [Hc Hl]; [exact Hb' | lia |].
      split; [exact Hc | lia].
Qed.

(** X12: under a wall clock (no operation sets the clock back, a delay
    of [ms] takes at least [ms]) the function always comes to an end,
    whatever the engine answers: [timeout / 250 + 1] iterations and one
    more are enough, and it issues at most [timeout / 250 + 1] status
    queries (none when the timeout is negative). *)
Theorem X12_terminates_under_wall_clock fuel request timeout w :
  WallClock ->
  (Z.to_nat (effectiveTimeout timeout / 250 + 1) < fuel)%nat ->
  let r := performPyripEngineScrape fuel request timeout w in
  completion r <> OutOfFuel
  /\ (List.length (statusQueries (trace r))
      <= Z.to_nat (effectiveTimeout timeout / 250 + 1))%nat.
Proof.
  intros Hclock Hfuel. cbv zeta.
  destruct (perform_cases fuel request timeout w)
    as [(e & w1 & Hf & ->) | (h & startTime & w' & Hs & ->)].
  - cbn. split; [discriminate | lia].
  - cbn [after completion trace app statusQueries].
    apply (pollLoop_terminates _ _ _ Hclock); [| exact Hfuel].
    cbn [world].
    assert (Hc : startTime <= clock w').
    { unfold started in Hs.
      destruct (robustFetch (scrapeParams request) w) as [a w1].
      destruct Hs as [_ Hn]. destruct Hclock as (Hnow & _).
      specialize (Hnow w1). unfold clock in *. rewrite Hn in Hnow.
      exact Hnow. }
    pose proof (budget_below_queries (effectiveTimeout timeout)). lia.
Qed.

(** *** Anomalies below the ceiling *)

Lemma pollLoop_tolerates jobId startTime timeout v :
  forall rs errs w fuel,
    answers jobId startTime timeout (rs ++ [Fulfilled v]) w ->
    forallb nonTerminal rs = true ->
    (List.length (errs ++ anomalies rs) < errorLimit)%nat ->
    (List.length rs < fuel)%nat ->
    let r := pollLoop fuel jobId startTime timeout
               {| world := w; errors := errs |} in
    completion r = Normal v /\ errors (store r) = errs ++ anomalies rs.
Proof.
  induction rs as [| a rs IH]; intros errs w fuel Ha Hnt Hlen Hfuel r; subst r;
    (destruct fuel as [| fuel]; [cbn in Hfuel; lia |]);
    cbn [app] in Ha;
    apply answers_cons in Ha as (t & w1 & w2 & Hn & Ht & Hq & Ha);
    rewrite length_app in Hlen;
    assert (Hlt : (List.length (errors {| world := w; errors := errs |})
                   < errorLimit)%nat) by (cbn [errors]; lia).
  - rewrite (pollLoop_fulfilled _ _ _ _ _ _ _ _ _ Hlt Hn Ht Hq).
    cbn. now rewrite app_nil_r.
  - cbn [forallb] in Hnt. apply andb_true_iff in Hnt as [Hr Hnt].
    destruct a as [status | e]; [discriminate |].
    cbn [nonTerminal] in Hr. apply negb_true_iff in Hr.
    cbn [anomalies] in *. cbn [List.length] in Hfuel.
    destruct (instanceof_StillProcessingError e) eqn:Hstill.
    + assert (Hu : isUnexpected e = false)
        by (unfold isUnexpected; rewrite Hstill; reflexivity).
      rewrite Hu in *.
      rewrite (pollLoop_still _ _ _ _ _ _ _ _ _ Hlt Hn Ht Hq Hstill).
      cbn [after completion store errors].
      apply IH; auto; [rewrite length_app |]; lia.
    + assert (Hu : isUnexpected e = true).
      { unfold isUnexpected, isEngineFailure in *. rewrite Hstill in *.
        cbn in *. now rewrite Hr. }
      rewrite Hu in *.
      rewrite (pollLoop_unexpected _ _ _ _ _ _ _ _ _ Hlt Hn Ht Hq Hu).
      cbn [after completion store errors].
      replace (errs ++ e :: anomalies rs) with ((errs ++ [e]) ++ anomalies rs)
        by (rewrite <- app_assoc; reflexivity).
      apply IH; auto; [| lia].
      rewrite !length_app. cbn [List.length] in *. lia.
Qed.

(** X13: up to two unexpected errors are tolerated: when the status
    queries are answered by still-processing notices and at most two
    unexpected errors, in any order, and then by a result, with the
    timeout not exceeded, the function returns that result, and [errors]
    holds exactly the unexpected errors met, in order. *)
Theorem X13_two_anomalies_are_tolerated
    fuel request timeout w h startTime w' rs v :
  started request w h startTime w' ->
  answers (jobId h) startTime (effectiveTimeout timeout)
    (rs ++ [Fulfilled v]) w' ->
  forallb nonTerminal rs = true ->
  (List.length (anomalies rs) < errorLimit)%nat ->
  (List.length rs < fuel)%nat ->
  let r := performPyripEngineScrape fuel request timeout w in
  completion r = Normal v /\ errors (store r) = anomalies rs.
Proof.
  intros Hs Ha Hnt Hlen Hfuel. cbv zeta.
  rewrite (perform_started _ _ _ _ _ _ _ Hs). cbn [after completion store].
  apply (pollLoop_tolerates _ _ _ v rs [] w' fuel Ha Hnt); auto.
Qed.

(** *** The timeout at its bound *)

(** X14: the timeout check is strict: an iteration entered with the
    anomaly count below the ceiling when the time elapsed since the
    start is exactly the timeout does not time out but issues its status
    query right after reading the clock. *)
Theorem X14_query_at_exact_timeout fuel jobId startTime timeout s t w1 a w2 :
  (List.length (errors s) < errorLimit)%nat ->
  Date_now (world s) = (t, w1) ->
  t - startTime = timeout ->
  pyripEngineCheckStatus jobId w1 = (a, w2) ->
  exists rest,
    trace (pollLoop (S fuel) jobId startTime timeout s)
    = ReadClock t :: CallCheckStatus jobId a :: rest.
Proof.
  intros Hlt Hn Ht Hq.
  assert (Hle : t - startTime <= timeout) by lia.
  destruct a as [status | e].
  { rewrite (pollLoop_fulfilled _ _ _ _ _ _ _ _ _ Hlt Hn Hle Hq).
    eexists. reflexivity. }
  destruct (instanceof_StillProcessingError e) eqn:Hs.
  { rewrite (pollLoop_still _ _ _ _ _ _ _ _ _ Hlt Hn Hle Hq Hs).
    eexists. reflexivity. }
  destruct (instanceof_EngineError e) eqn:Hf.
  - assert (He : isEngineFailure e = true)
      by (unfold isEngineFailure; rewrite Hs, Hf; reflexivity).
    rewrite (pollLoop_engine _ _ _ _ _ _ _ _ _ Hlt Hn Hle Hq He).
    eexists. reflexivity.
  - assert (He : isUnexpected e = true)
      by (unfold isUnexpected; rewrite Hs, Hf; reflexivity).
    rewrite (pollLoop_unexpected _ _ _ _ _ _ _ _ _ Hlt Hn Hle Hq He).
    eexists. reflexivity.
Qed.

End PollerExtras.

(** ** The further properties at concrete inputs *)

Section ExtraInstances.

Import Poller.

Lemma X4_dispatch_failure_propagates_witness :
  let down := OtherError "connection refused" in
  let w := {| sim_clock := 0;
              sim_dispatch := Rejected down;
              sim_script := [Fulfilled "page"%string] |} in
  performPyripEngineScrape 5 sampleRequest None w
  = {| completion := Throws (Raised down);
       store := {| world := polling [Fulfilled "page"%string]; errors := [] |};
       trace := [CallScrape sampleRequest (Rejected down)] |}.
Proof.
  cbv zeta.
  apply (X4_dispatch_failure_propagates (RT := SimRuntime)).
  reflexivity.
Defined.

Lemma X7_timeout_cause_witness :
  let r := performPyripEngineScrape 5 sampleRequest (Some 300)
             (simWorld (job true) [Rejected (OtherError "blip")]) in
  300 = effectiveTimeout (Some 300)
  /\ [OtherError "blip"] = errors (store r)
  /\ (List.length [OtherError "blip"] < errorLimit)%nat.
Proof.
  cbv zeta.
  apply (X7_timeout_cause (RT := SimRuntime) 5%nat sampleRequest (Some 300)
           (simWorld (job true) [Rejected (OtherError "blip")])).
  reflexivity.
Defined.

Lemma X9_queries_ask_for_the_dispatched_job_witness :
  Forall (fun q => fst q = "job"%string)
    (statusQueries
       (trace
          (performPyripEngineScrape 5 sampleRequest None
             (simWorld (job true)
                [Rejected StillProcessingError; Fulfilled "page"%string])))).
Proof.
  apply (X9_queries_ask_for_the_dispatched_job (RT := SimRuntime) 5%nat
           sampleRequest None
           (simWorld (job true)
              [Rejected StillProcessingError; Fulfilled "page"%string])
           (job true) 0
           (polling [Rejected StillProcessingError; Fulfilled "page"%string])).
  unfold started. cbn. split; reflexivity.
Defined.

Lemma X11_result_is_last_answer_witness :
  exists qs,
    answersOf
      (trace
         (performPyripEngineScrape 5 sampleRequest None
            (simWorld (job true)
               [Rejected StillProcessingError; Fulfilled "page"%string])))
    = qs ++ [Fulfilled "page"%string].
Proof.
  apply (proj1
           (X11_result_is_last_answer (RT := SimRuntime) 5%nat sampleRequest None
              (simWorld (job true)
                 [Rejected StillProcessingError; Fulfilled "page"%string])
              (job true) 0
              (polling [Rejected StillProcessingError; Fulfilled "page"%string])
              (conj eq_refl eq_refl))).
  reflexivity.
Defined.

Lemma X12_terminates_under_wall_clock_witness :
  let r := performPyripEngineScrape (RT := IdleRuntime) 6 sampleRequest
             (Some 1000) 0 in
  completion r <> OutOfFuel
  /\ (List.length (statusQueries (trace r)) <= 5)%nat.
Proof.
  cbv zeta.
  apply (X12_terminates_under_wall_clock (RT := IdleRuntime) 6%nat
           sampleRequest (Some 1000) 0 idle_wall_clock).
  cbn. lia.
Defined.

Lemma X13_two_anomalies_are_tolerated_witness :
  let script := [Rejected (OtherError "a"); Rejected StillProcessingError;
                 Rejected (OtherError "b"); Fulfilled "page"%string] in
  let r := performPyripEngineScrape 4 sampleRequest None
             (simWorld (job true) script) in
  completion r = Normal "page"%string
  /\ errors (store r) = [OtherError "a"; OtherError "b"].
Proof.
  cbv zeta.
  apply (X13_two_anomalies_are_tolerated (RT := SimRuntime) 4%nat
           sampleRequest None
           (simWorld (job true)
              [Rejected (OtherError "a"); Rejected StillProcessingError;
               Rejected (OtherError "b"); Fulfilled "page"%string])
           (job true) 0
           (polling
              [Rejected (OtherError "a"); Rejected StillProcessingError;
               Rejected (OtherError "b"); Fulfilled "page"%string])
           [Rejected (OtherError "a"); Rejected StillProcessingError;
            Rejected (OtherError "b")]
           "page"%string).
  - unfold started. cbn. split; reflexivity.
  - cbn. unfold defaultTimeout. repeat split; try reflexivity; lia.
  - reflexivity.
  - unfold errorLimit. cbn. lia.
  - cbn. lia.
Defined.

Lemma X14_query_at_exact_timeout_witness :
  let w := {| sim_clock := 1000;
              sim_dispatch := Rejected (OtherError "dispatched");
              sim_script := [Fulfilled "page"%string] |} in
  exists rest,
    trace (pollLoop 1 "job" 0 1000 {| world := w; errors := [] |})
    = ReadClock 1000 :: CallCheckStatus "job" (Fulfilled "page"%string) :: rest.
Proof.
  cbv zeta.
  apply (X14_query_at_exact_timeout (RT := SimRuntime) 0%nat "job"%string 0 1000
           {| world := {| sim_clock := 1000;
                          sim_dispatch := Rejected (OtherError "dispatched");
                          sim_script := [Fulfilled "page"%string] |};
              errors := [] |}
           1000
           {| sim_clock := 1000;
              sim_dispatch := Rejected (OtherError "dispatched");
              sim_script := [Fulfilled "page"%string] |}
           (Fulfilled "page"%string)
           {| sim_clock := 1000;
              sim_dispatch := Rejected (OtherError "dispatched");
              sim_script := [] |}).
  - unfold errorLimit. cbn. lia.
  - reflexivity.
  - reflexivity.
  - reflexivity.
Defined.

End ExtraInstances.
